(** * Multi-tenant SQLAlchemy configuration and migration commands

    A shallow embedding of [src/config.py], [src/plugin.py] and the parts of
    [src/plugin_commands.py] that decide the specified behaviour, with the
    properties proved about them.

    Python objects that the code mutates (the connection scope, the
    application state, the terminal, the databases) are threaded
    explicitly.  Calls that may raise return a [Result]. *)

From Stdlib Require Import String Ascii List Bool Arith Lia.
From stdpp Require Import base option gmap strings list.
Import ListNotations.

Local Open Scope string_scope.
Local Open Scope list_scope.

(** ** Python values shared by both modules *)

Module Py.

(** The exceptions the embedded code can meet.  Only
    [ImproperConfigurationError] is raised by the repository itself; the
    others come from the interpreter, from the libraries it calls or, for
    [ProgrammingError], from the database server. *)
Inductive Exception : Type :=
| KeyError (msg : string)
| IndexError (msg : string)
| TypeError (msg : string)
| EOFError
| Abort
| BadOptionUsage (msg : string)
| ImproperConfigurationError (msg : string)
| ProgrammingError (msg : string).

Inductive Result (A : Type) : Type :=
| Ok (a : A)
| Raise (e : Exception).
Arguments Ok {A} a.
Arguments Raise {A} e.

Definition is_ok {A} (r : Result A) : bool :=
  match r with Ok _ => true | Raise _ => false end.

(** Truth value of a [str]: the empty string is false. *)
Definition str_truthy (s : string) : bool :=
  match s with EmptyString => false | String _ _ => true end.

(** [s.startswith(p)]. *)
Definition startswith (s p : string) : bool := String.prefix p s.

End Py.
Export Py.

(** ** [advanced_alchemy.utils.text.slugify] on ASCII text

    The library function is not part of the repository; the provider below is
    parametric in it.  This executable rendering of it is used to run the
    provider on concrete requests in ASCII, on which it agrees with the
    library (characters outside ASCII, which the library decomposes first,
    are dropped here): lower-case the text, drop what is neither a
    word character, white space nor a hyphen, squeeze runs of hyphens and
    white space to one hyphen, strip hyphens and underscores at both ends and
    write the separator for each remaining hyphen. *)

Module Slug.

Local Open Scope nat_scope.

Definition code (c : ascii) : nat := nat_of_ascii c.

Definition lower (c : ascii) : ascii :=
  if (65 <=? code c) && (code c <=? 90) then ascii_of_nat (code c + 32) else c.

Definition is_word (c : ascii) : bool :=
  ((48 <=? code c) && (code c <=? 57)) ||
  ((65 <=? code c) && (code c <=? 90)) ||
  ((97 <=? code c) && (code c <=? 122)) ||
  (code c =? 95).

Definition is_space (c : ascii) : bool :=
  ((9 <=? code c) && (code c <=? 13)) ||
  ((28 <=? code c) && (code c <=? 32)).

Definition is_hyphen (c : ascii) : bool := code c =? 45.

Definition is_ascii (c : ascii) : bool := code c <? 128.

(** [re.sub(r"[-\s]+", "-", value)]; [in_run] tells that the previous
    character already belonged to the run being squeezed. *)
Fixpoint squeeze (in_run : bool) (l : list ascii) : list ascii :=
  match l with
  | [] => []
  | c :: l' =>
      if is_hyphen c || is_space c
      then (if in_run then squeeze true l' else "-"%char :: squeeze true l')
      else c :: squeeze false l'
  end.

Definition strip_char (c : ascii) : bool := is_hyphen c || (code c =? 95).

Fixpoint lstrip (l : list ascii) : list ascii :=
  match l with
  | c :: l' => if strip_char c then lstrip l' else l
  | [] => []
  end.

Definition strip (l : list ascii) : list ascii := rev (lstrip (rev (lstrip l))).

Fixpoint replace_hyphen (separator : string) (l : list ascii) : string :=
  match l with
  | [] => ""
  | c :: l' =>
      if is_hyphen c then separator +:+ replace_hyphen separator l'
      else String c (replace_hyphen separator l')
  end.

Definition slugify (value separator : string) : string :=
  let ascii_only := List.filter is_ascii (list_ascii_of_string value) in
  let lowered := map lower ascii_only in
  let kept := List.filter (fun c => is_word c || is_space c || is_hyphen c) lowered in
  replace_hyphen separator (strip (squeeze false kept)).

End Slug.

(** ** [str.strip] and [str.lower] on UTF-8 text

    A line of input is the sequence of its UTF-8 bytes.  [strip] removes the
    characters at both ends for which [str.isspace] holds, the ones outside
    ASCII included.  [lower] changes the ASCII capitals; it is used only to
    compare an answer with [y] and [n], and no character outside ASCII
    lower-cases to either of them. *)

Module Str.

Local Open Scope nat_scope.

(** The bytes of each character: a byte [10xxxxxx] continues the character
    begun before it. *)
Definition is_continuation (c : ascii) : bool :=
  (128 <=? Slug.code c) && (Slug.code c <? 192).

Fixpoint chars (l : list ascii) : list (list ascii) :=
  match l with
  | [] => []
  | c :: l' =>
      match chars l' with
      | (d :: ds) :: rest => if is_continuation d then (c :: d :: ds) :: rest
                             else [c] :: (d :: ds) :: rest
      | rest => [c] :: rest
      end
  end.

(** The white space of Python: U+0009 to U+000D, U+001C to U+0020, U+0085,
    U+00A0, U+1680, U+2000 to U+200A, U+2028, U+2029, U+202F, U+205F and
    U+3000. *)
Definition isspace (char : list ascii) : bool :=
  match map Slug.code char with
  | [b] => ((9 <=? b) && (b <=? 13)) || ((28 <=? b) && (b <=? 32))
  | [194; b] => (b =? 133) || (b =? 160)
  | [225; 154; 128] => true
  | [226; 128; b] => ((128 <=? b) && (b <=? 138)) || (b =? 168) || (b =? 169) || (b =? 175)
  | [226; 129; 159] => true
  | [227; 128; 128] => true
  | _ => false
  end.

Fixpoint lstrip (l : list (list ascii)) : list (list ascii) :=
  match l with
  | char :: l' => if isspace char then lstrip l' else l
  | [] => []
  end.

Definition strip (s : string) : string :=
  string_of_list_ascii
    (concat (rev (lstrip (rev (lstrip (chars (list_ascii_of_string s))))))).

Definition lower (s : string) : string :=
  string_of_list_ascii (map Slug.lower (list_ascii_of_string s)).

End Str.

(** ** [config.py]: the configuration and its session provider *)

Record AlembicConfig : Type := {
  script_location : string;
  template_path : string
}.

(** The dataclass of [config.py].  The first four fields are the ones of the
    base class [SQLAlchemyAsyncConfig] that the repository reads. *)
Record SQLAlchemyMultiTenantAsyncConfig : Type := {
  connection_string : string;
  session_scope_key : string;
  session_maker_app_state_key : string;
  alembic_config : AlembicConfig;
  core_schema_name : string;
  core_revision_name : string;
  tenant_schema_prefix : string;
  tenant_revision_name : string;
  tenant_schema_separator : string
}.

Definition ALEMBIC_TEMPLATE_PATH : string := "alembic_templates".

(** The field defaults of the dataclass, for a given connection string. *)
Definition default_config (url : string) : SQLAlchemyMultiTenantAsyncConfig := {|
  connection_string := url;
  session_scope_key := "_sqlalchemy_db_session";
  session_maker_app_state_key := "session_maker_class";
  alembic_config := {| script_location := "migrations";
                       template_path := ALEMBIC_TEMPLATE_PATH |};
  core_schema_name := "core";
  core_revision_name := "core";
  tenant_schema_prefix := "tenant";
  tenant_revision_name := "tenant";
  tenant_schema_separator := "_"
|}.

(** An engine with its execution options; the only option the code sets is
    [schema_translate_map], a dict from an optional schema to a schema. *)
Record Engine : Type := {
  engine_url : string;
  schema_translate_map : option (gmap (option string) string)
}.

Definition get_engine (self : SQLAlchemyMultiTenantAsyncConfig) : Engine :=
  {| engine_url := connection_string self; schema_translate_map := None |}.

(** [engine.execution_options(schema_translate_map=m)]: a copy of the engine
    carrying the option. *)
Definition execution_options (engine : Engine) (m : gmap (option string) string) : Engine :=
  {| engine_url := engine_url engine; schema_translate_map := Some m |}.

(** Sessions are objects: two sessions are the same object when their
    [session_id] agree. *)
Record AsyncSession : Type := {
  session_id : nat;
  bind : Engine
}.

(** The session maker kept in the application state, bound to an engine when
    the application started. *)
Record async_sessionmaker : Type := {
  maker_bind : Engine
}.

(** One call of a session maker: the [bind=] keyword it received, if any, and
    the session it returned. *)
Record MakerCall : Type := {
  call_maker : async_sessionmaker;
  call_bind : option Engine;
  call_result : AsyncSession
}.

(** Every session-maker call made so far, oldest first. *)
Record Runtime : Type := {
  maker_calls : list MakerCall
}.

Definition created (rt : Runtime) : list AsyncSession :=
  map call_result (maker_calls rt).

Definition call_session_maker (session_maker : async_sessionmaker)
    (kw_bind : option Engine) (rt : Runtime) : AsyncSession * Runtime :=
  let session := {| session_id := length (maker_calls rt);
                    bind := default (maker_bind session_maker) kw_bind |} in
  (session,
   {| maker_calls := maker_calls rt ++
        [ {| call_maker := session_maker; call_bind := kw_bind; call_result := session |} ] |}).

(** The ASGI connection scope: the path parameters of the request and the
    name space in which [advanced_alchemy] keeps its per-connection objects. *)
Record Scope : Type := {
  path_params : gmap string string;
  aa_state : gmap string AsyncSession
}.

Definition get_aa_scope_state (scope : Scope) (key : string) : option AsyncSession :=
  aa_state scope !! key.

Definition set_aa_scope_state (scope : Scope) (key : string) (value : AsyncSession) : Scope :=
  {| path_params := path_params scope; aa_state := <[key := value]> (aa_state scope) |}.

(** Truth value of a [dict | None]: [None] and the empty dict are false. *)
Definition map_truthy (m : option (gmap (option string) string)) : bool :=
  match m with
  | Some d => negb (bool_decide (d = ∅))
  | None => false
  end.

Section Provider.

(** [slugify value separator] stands for
    [slugify(value, separator=separator)]. *)
Variable slugify : string -> string -> string.

(** Lines 52-54 of [config.py]. *)
Definition schema_name (self : SQLAlchemyMultiTenantAsyncConfig)
    (organisation_slug : string) : string :=
  tenant_schema_prefix self +:+ slugify organisation_slug (tenant_schema_separator self).

(** Lines 47-55: the mapping stays [None] unless the path parameter is
    present and true. *)
Definition schema_translation_map (self : SQLAlchemyMultiTenantAsyncConfig)
    (scope : Scope) : option (gmap (option string) string) :=
  match path_params scope !! "organisation_slug" with
  | Some organisation_slug =>
      if str_truthy organisation_slug
      then Some {[ None := schema_name self organisation_slug ]}
      else None
  | None => None
  end.

(** [SQLAlchemyMultiTenantAsyncConfig.provide_session].  The result comes
    with the scope and the runtime as the call leaves them. *)
Definition provide_session (self : SQLAlchemyMultiTenantAsyncConfig)
    (state : gmap string async_sessionmaker) (scope : Scope) (rt : Runtime)
    : Result AsyncSession * Scope * Runtime :=
  let session := get_aa_scope_state scope (session_scope_key self) in
  let engine := get_engine self in
  let translation := schema_translation_map self scope in
  match session with
  | Some session => (Ok session, scope, rt)
  | None =>
      match state !! session_maker_app_state_key self with
      | None => (Raise (KeyError (session_maker_app_state_key self)), scope, rt)
      | Some session_maker =>
          let '(session, rt') :=
            match translation with
            | Some m =>
                if map_truthy translation
                then call_session_maker session_maker (Some (execution_options engine m)) rt
                else call_session_maker session_maker None rt
            | None => call_session_maker session_maker None rt
            end in
          (Ok session, set_aa_scope_state scope (session_scope_key self) session, rt')
      end
  end.

End Provider.

(** [n] consecutive calls for one connection: the scope object is the same
    throughout, so each call sees what the previous one left in it. *)
Fixpoint provide_sessions (slugify : string -> string -> string) (n : nat)
    (self : SQLAlchemyMultiTenantAsyncConfig) (state : gmap string async_sessionmaker)
    (scope : Scope) (rt : Runtime) : list (Result AsyncSession) * Scope * Runtime :=
  match n with
  | O => ([], scope, rt)
  | S n' =>
      let '(r, scope1, rt1) := provide_session slugify self state scope rt in
      let '(rs, scope2, rt2) := provide_sessions slugify n' self state scope1 rt1 in
      (r :: rs, scope2, rt2)
  end.

(** The schema name as the specification words it:
    [{prefix}{separator}{slug}]. *)
Definition spec_schema_name (slugify : string -> string -> string)
    (self : SQLAlchemyMultiTenantAsyncConfig) (organisation_slug : string) : string :=
  tenant_schema_prefix self +:+ tenant_schema_separator self +:+
  slugify organisation_slug (tenant_schema_separator self).

(** The request with its [organisation_slug] path parameter taken away. *)
Definition without_slug (scope : Scope) : Scope :=
  {| path_params := delete "organisation_slug" (path_params scope);
     aa_state := aa_state scope |}.

(** ** [plugin.py]: the plugin and its configurations *)

(** The constructor argument: one configuration or a sequence of them. *)
Inductive ConfigArgument : Type :=
| Single (c : SQLAlchemyMultiTenantAsyncConfig)
| Sequence (cs : list SQLAlchemyMultiTenantAsyncConfig).

Record SQLAlchemyInitMultiTenantPlugin : Type := {
  _config : ConfigArgument
}.

(** The [config] property. *)
Definition config (self : SQLAlchemyInitMultiTenantPlugin)
    : list SQLAlchemyMultiTenantAsyncConfig :=
  match _config self with
  | Sequence cs => cs
  | Single c => [c]
  end.

(** A plugin registered on the application: the multi-tenant plugin of this
    repository, or an object of some other class. *)
Inductive Plugin : Type :=
| MultiTenant (p : SQLAlchemyInitMultiTenantPlugin)
| OtherPlugin (class_name : string).

Record Litestar : Type := {
  plugins : list Plugin
}.

(** The registry keeps one plugin per class, [{type(p): p for p in plugins}]:
    of several plugins of one class the last one stays. *)
Fixpoint _plugins_by_type (ps : list Plugin) (found : option SQLAlchemyInitMultiTenantPlugin)
    : option SQLAlchemyInitMultiTenantPlugin :=
  match ps with
  | [] => found
  | MultiTenant p :: ps' => _plugins_by_type ps' (Some p)
  | OtherPlugin _ :: ps' => _plugins_by_type ps' found
  end.

(** [app.plugins.get(SQLAlchemyInitMultiTenantPlugin)]. *)
Definition plugins_get (app : Litestar) : Result SQLAlchemyInitMultiTenantPlugin :=
  match _plugins_by_type (plugins app) None with
  | Some p => Ok p
  | None => Raise (KeyError "No plugin of type 'SQLAlchemyInitMultiTenantPlugin' registered")
  end.

(** ** [plugin_commands.py] *)

Definition missing_plugin_msg : string :=
  "Failed to initialize database migrations. The required plugin (SQLAlchemyPlugin or SQLAlchemyInitPlugin) is missing.".

(** [with suppress(KeyError): return ...] lets every other exception pass. *)
Definition get_database_migration_plugin (app : Litestar)
    : Result SQLAlchemyInitMultiTenantPlugin :=
  match plugins_get app with
  | Ok p => Ok p
  | Raise (KeyError _) => Raise (ImproperConfigurationError missing_plugin_msg)
  | Raise e => Raise e
  end.

(** [x in l] for a list of strings. *)
Fixpoint contains (l : list string) (x : string) : bool :=
  match l with
  | [] => false
  | y :: l' => if String.eqb y x then true else contains l' x
  end.

Definition is_valid_revision_type (revision_type : string)
    (valid_revision_type : list string) : bool :=
  if contains valid_revision_type revision_type then true else false.

(** *** The outside of a command: terminal, migration engine, databases *)

(** A call of the migration engine, with the script directory its
    configuration pointed at when the call was made. *)
Inductive AlembicOperation : Type :=
| Upgrade (revision : string) (sql : bool) (tag : option string)
| Downgrade (revision : string) (sql : bool) (tag : option string).

Record AlembicCall : Type := {
  on_database : string;
  in_script_location : option string;
  operation : AlembicOperation
}.

Inductive SqlEvent : Type :=
| Execute (url : string) (statement : string)
| Commit (url : string).

Record World : Type := {
  stdin : list string;                      (* lines the user will type *)
  console : list string;                    (* what was written to the terminal *)
  discarded : list Exception;               (* exception objects built and dropped *)
  alembic_log : list AlembicCall;           (* migration-engine calls, oldest first *)
  databases : gmap string (list string);    (* schemas of each database, by URL *)
  sql_log : list SqlEvent;                  (* statements and commits, oldest first *)
  server : string -> string -> list string -> Result (list string)
    (* the database server: what a statement sent to the database of a URL
       makes of its schemas, or the error the server answers with *)
}.

(** A command: it reads and changes the world and returns or raises. *)
Definition Command (A : Type) : Type := World -> Result A * World.

Definition ret {A} (a : A) : Command A := fun w => (Ok a, w).

Definition and_then {A B} (m : Command A) (k : A -> Command B) : Command B :=
  fun w => match m w with
           | (Ok a, w') => k a w'
           | (Raise e, w') => (Raise e, w')
           end.

Definition lift {A} (r : Result A) : Command A := fun w => (r, w).

Notation "x <- m ;; k" := (and_then m (fun x => k))
  (at level 100, m at next level, right associativity).
Notation "m ;;; k" := (and_then m (fun _ => k))
  (at level 100, right associativity).

(** [for x in l: body(x)]. *)
Fixpoint for_each {A} (l : list A) (body : A -> Command unit) : Command unit :=
  match l with
  | [] => ret tt
  | x :: l' => body x ;;; for_each l' body
  end.

Definition console_rule (text : string) : Command unit :=
  fun w => (Ok tt,
            {| stdin := stdin w; console := console w ++ [text]; discarded := discarded w;
               alembic_log := alembic_log w; databases := databases w; sql_log := sql_log w;
               server := server w |}).

Definition set_stdin (lines : list string) (w : World) : World :=
  {| stdin := lines; console := console w; discarded := discarded w;
     alembic_log := alembic_log w; databases := databases w; sql_log := sql_log w;
     server := server w |}.

(** An expression statement whose value is an exception object: the object
    is built and nothing is done with it. *)
Definition discard (e : Exception) : Command unit :=
  fun w => (Ok tt,
            {| stdin := stdin w; console := console w; discarded := discarded w ++ [e];
               alembic_log := alembic_log w; databases := databases w; sql_log := sql_log w;
               server := server w |}).

(** [rich.prompt.Confirm.ask]: each line is stripped and lower-cased
    ([process_response]); the first one that is then [y] or [n] is the
    answer, the lines before it are asked about again; the end of the input
    raises [EOFError]. *)
Fixpoint read_confirm (lines : list string) : option (bool * list string) :=
  match lines with
  | [] => None
  | line :: rest =>
      let value := Str.lower (Str.strip line) in
      if String.eqb value "y" then Some (true, rest)
      else if String.eqb value "n" then Some (false, rest)
      else read_confirm rest
  end.

Definition Confirm_ask (text : string) : Command bool :=
  console_rule text ;;;
  (fun w => match read_confirm (stdin w) with
            | Some (answer, rest) => (Ok answer, set_stdin rest w)
            | None => (Raise EOFError, set_stdin [] w)
            end).

(** [click.prompt(text, type=Choice(choices, case_sensitive=True))]: asks
    again until a non-empty line is one of the choices; the end of the input
    raises [Abort]. *)
Fixpoint read_choice (choices : list string) (lines : list string)
    : option (string * list string) :=
  match lines with
  | [] => None
  | line :: rest =>
      if str_truthy line && contains choices line then Some (line, rest)
      else read_choice choices rest
  end.

Definition prompt (text : string) (choices : list string) : Command string :=
  console_rule text ;;;
  (fun w => match read_choice choices (stdin w) with
            | Some (value, rest) => (Ok value, set_stdin rest w)
            | None => (Raise Abort, set_stdin [] w)
            end).

(** [str.format] of the message with the list unpacked into its arguments:
    the two fields take the first two of them, further ones are ignored, and
    a missing one raises [IndexError]. *)
Definition format_revision_types (args : list string) : Result string :=
  match args with
  | a :: b :: _ => Ok ("Revision type should be one of [" +:+ a +:+ "|" +:+ b +:+ "]")
  | _ => Raise (IndexError "Replacement index out of range for positional args tuple")
  end.

(** [f"{x}"] for an optional string. *)
Definition fstr (x : option string) : string := default "None" x.

(** [l[0]]. *)
Definition first_item {A} (l : list A) : Result A :=
  match l with
  | x :: _ => Ok x
  | [] => Raise (IndexError "list index out of range")
  end.

(** The [AlembicCommands] object: the configuration it was built for and the
    main options of its Alembic configuration. *)
Record AlembicCommands : Type := {
  sqlalchemy_config : SQLAlchemyMultiTenantAsyncConfig;
  main_options : gmap string string
}.

Definition new_AlembicCommands (c : SQLAlchemyMultiTenantAsyncConfig) : AlembicCommands :=
  {| sqlalchemy_config := c;
     main_options := {[ "script_location" := script_location (alembic_config c) ]} |}.

Definition set_main_option (self : AlembicCommands) (name value : string) : AlembicCommands :=
  {| sqlalchemy_config := sqlalchemy_config self;
     main_options := <[name := value]> (main_options self) |}.

(** A call of the migration engine through the commands object. *)
Definition alembic_run (self : AlembicCommands) (op : AlembicOperation) : Command unit :=
  fun w => (Ok tt,
            {| stdin := stdin w; console := console w; discarded := discarded w;
               alembic_log := alembic_log w ++
                 [ {| on_database := connection_string (sqlalchemy_config self);
                      in_script_location := main_options self !! "script_location";
                      operation := op |} ];
               databases := databases w; sql_log := sql_log w; server := server w |}).

Section RevisionCommands.

(** The call [BadOptionUsage(message)] with its one positional argument.
    The class belongs to click, so the commands are parametric in the call;
    [click_BadOptionUsage] below is what click makes of it. *)
Variable new_BadOptionUsage : string -> Result Exception.

Definition prompt_and_validate_revision (revision_type : option string)
    (valid_revision_type : list string) : Command string :=
  revision_type <-
    match revision_type with
    | Some given => if str_truthy given then ret given
                    else prompt "Revision type" valid_revision_type
    | None => prompt "Revision type" valid_revision_type
    end ;;
  if negb (is_valid_revision_type revision_type valid_revision_type)
  then
    message <- lift (format_revision_types valid_revision_type) ;;
    error <- lift (new_BadOptionUsage message) ;;
    discard error ;;;
    ret revision_type
  else ret revision_type.

Definition downgrade_database (app : Litestar) (revision_type : option string)
    (revision : string) (sql : bool) (tag : option string) (no_prompt : bool)
    : Command unit :=
  console_rule "[yellow]Starting database downgrade process[/]" ;;;
  input_confirmed <-
    (if no_prompt then ret true
     else Confirm_ask ("Are you sure you want to downgrade the database schema: " +:+
                       fstr revision_type +:+ " to the `" +:+ revision +:+ "` revision?")) ;;
  if (input_confirmed : bool)
  then
    plugin <- lift (get_database_migration_plugin app) ;;
    sqlalchemy_config <- lift (first_item (config plugin)) ;;
    let valid_revision := [core_revision_name sqlalchemy_config;
                           tenant_revision_name sqlalchemy_config] in
    revision_type <- prompt_and_validate_revision revision_type valid_revision ;;
    let alembic_commands := new_AlembicCommands sqlalchemy_config in
    let alembic_commands :=
      set_main_option alembic_commands "script_location"
        (script_location (alembic_config sqlalchemy_config) +:+ "/" +:+ revision_type) in
    alembic_run alembic_commands (Downgrade revision sql tag)
  else ret tt.

Definition upgrade_database (app : Litestar) (revision_type : option string)
    (revision : string) (sql : bool) (tag : option string) (no_prompt : bool)
    : Command unit :=
  console_rule "[yellow]Starting database upgrade process[/]" ;;;
  input_confirmed <-
    (if no_prompt then ret true
     else Confirm_ask ("[bold]Are you sure you want migrate the `" +:+ fstr revision_type +:+
                       "` database to the `" +:+ revision +:+ "` revision?[/]")) ;;
  if (input_confirmed : bool)
  then
    plugin <- lift (get_database_migration_plugin app) ;;
    sqlalchemy_config <- lift (first_item (config plugin)) ;;
    let valid_revision := [core_revision_name sqlalchemy_config;
                           tenant_revision_name sqlalchemy_config] in
    revision_type <- prompt_and_validate_revision revision_type valid_revision ;;
    let alembic_commands := new_AlembicCommands sqlalchemy_config in
    let alembic_commands :=
      set_main_option alembic_commands "script_location"
        (script_location (alembic_config sqlalchemy_config) +:+ "/" +:+ revision_type) in
    alembic_run alembic_commands (Upgrade revision sql tag)
  else ret tt.

End RevisionCommands.

(** The constructor of click,
    [BadOptionUsage.__init__(self, option_name, message, ctx=None)], called
    with positional arguments. *)
Definition BadOptionUsage_init (positional : list string) : Result Exception :=
  match positional with
  | [] => Raise (TypeError "BadOptionUsage.__init__() missing 2 required positional arguments: 'option_name' and 'message'")
  | [option_name] => Raise (TypeError "BadOptionUsage.__init__() missing 1 required positional argument: 'message'")
  | [option_name; message] => Ok (BadOptionUsage message)
  | _ => Raise (TypeError "BadOptionUsage.__init__() takes from 3 to 4 positional arguments")
  end.

(** The call the program makes: the message is its only argument. *)
Definition click_BadOptionUsage (message : string) : Result Exception :=
  BadOptionUsage_init [message].

(** *** drop-all *)

(** [inspect(sync_conn).get_schema_names()]. *)
Definition get_schema_names (engine : Engine) : Command (list string) :=
  fun w => (Ok (default [] (databases w !! engine_url engine)), w).

Definition drop_schema_statement (schema : string) : string :=
  "DROP SCHEMA IF EXISTS " +:+ schema +:+ " CASCADE".

(** [connection.execute(text(f"DROP SCHEMA IF EXISTS {schema} CASCADE"))]:
    the name goes into the statement as it is, without quotes, and the
    statement goes to the server.  What the server makes of it is the
    server's business: it may change the schemas of the database of the
    connection, or raise, and then the schemas stay. *)
Definition execute_drop_schema (engine : Engine) (schema : string) : Command unit :=
  fun w =>
    let url := engine_url engine in
    let statement := drop_schema_statement schema in
    match server w url statement (default [] (databases w !! url)) with
    | Ok schemas =>
        (Ok tt,
         {| stdin := stdin w; console := console w; discarded := discarded w;
            alembic_log := alembic_log w;
            databases := <[url := schemas]> (databases w);
            sql_log := sql_log w ++ [Execute url statement]; server := server w |})
    | Raise e =>
        (Raise e,
         {| stdin := stdin w; console := console w; discarded := discarded w;
            alembic_log := alembic_log w; databases := databases w;
            sql_log := sql_log w ++ [Execute url statement]; server := server w |})
    end.

Definition commit (engine : Engine) : Command unit :=
  fun w => (Ok tt,
            {| stdin := stdin w; console := console w; discarded := discarded w;
               alembic_log := alembic_log w; databases := databases w;
               sql_log := sql_log w ++ [Commit (engine_url engine)]; server := server w |}).

(** Line 574: the schemas taken for tenant schemas. *)
Definition tenant_schemas (config : SQLAlchemyMultiTenantAsyncConfig)
    (all_schemas : list string) : list string :=
  List.filter (fun schema => startswith schema (tenant_schema_prefix config)) all_schemas.

(** The body of the loop over the configurations, lines 569-583. *)
Definition _drop_all_config (config : SQLAlchemyMultiTenantAsyncConfig) : Command unit :=
  let engine := get_engine config in
  all_schemas <- get_schema_names engine ;;
  for_each (tenant_schemas config all_schemas)
    (fun schema => execute_drop_schema engine schema ;;; commit engine) ;;;
  execute_drop_schema engine (core_schema_name config) ;;;
  commit engine.

Definition _drop_all (configs : list SQLAlchemyMultiTenantAsyncConfig) : Command unit :=
  for_each configs _drop_all_config.

Definition drop_all (app : Litestar) (no_prompt : bool) : Command unit :=
  console_rule "[yellow]Dropping all tables from the database[/]" ;;;
  input_confirmed <-
    (if no_prompt then ret true
     else Confirm_ask "[bold red]Are you sure you want to drop all tables from the database?") ;;
  plugin <- lift (get_database_migration_plugin app) ;;
  let config := config plugin in
  if (input_confirmed : bool) then _drop_all config else ret tt.

(** What a run did to the databases and to the migration engine. *)
Definition engine_effects (w : World) : list AlembicCall * gmap string (list string) * list SqlEvent :=
  (alembic_log w, databases w, sql_log w).

(** The statements of a turn that returns, for a configuration whose
    database shows [all_schemas]: one for each tenant schema, then the one
    for the core schema. *)
Definition drop_statements (config : SQLAlchemyMultiTenantAsyncConfig)
    (all_schemas : list string) : list string :=
  map (fun schema => "DROP SCHEMA IF EXISTS " +:+ schema +:+ " CASCADE")
      (tenant_schemas config all_schemas)
  ++ ["DROP SCHEMA IF EXISTS " +:+ core_schema_name config +:+ " CASCADE"].

(** Each statement is followed by its commit. *)
Definition drop_events (config : SQLAlchemyMultiTenantAsyncConfig)
    (all_schemas : list string) : list SqlEvent :=
  flat_map (fun statement => [Execute (connection_string config) statement;
                              Commit (connection_string config)])
           (drop_statements config all_schemas).

(** What a server makes of a sequence of statements on one database. *)
Fixpoint run_statements (execute : string -> list string -> Result (list string))
    (statements : list string) (schemas : list string) : Result (list string) :=
  match statements with
  | [] => Ok schemas
  | statement :: statements' =>
      match execute statement schemas with
      | Ok schemas' => run_statements execute statements' schemas'
      | Raise e => Raise e
      end
  end.

(** What reaches the database on the way: every statement the server
    accepts is committed, and the first one it rejects is the last one
    sent. *)
Fixpoint run_events (execute : string -> list string -> Result (list string))
    (url : string) (statements : list string) (schemas : list string) : list SqlEvent :=
  match statements with
  | [] => []
  | statement :: statements' =>
      match execute statement schemas with
      | Ok schemas' =>
          Execute url statement :: Commit url :: run_events execute url statements' schemas'
      | Raise _ => [Execute url statement]
      end
  end.

(** A server carries a drop out as written when it answers the statement
    for [schema] with the schemas it had, less the one of exactly that
    name. *)
Definition as_written (execute : string -> list string -> Result (list string))
    (schema : string) : Prop :=
  forall schemas,
    execute (drop_schema_statement schema) schemas
    = Ok (List.filter (fun other => negb (String.eqb other schema)) schemas).

(** The schemas that are neither tenant schemas nor the core schema. *)
Definition survives (config : SQLAlchemyMultiTenantAsyncConfig) (schema : string) : bool :=
  negb (startswith schema (tenant_schema_prefix config)) &&
  negb (String.eqb schema (core_schema_name config)).

(** The statements of a list of events that drop the given schema. *)
Definition drops_of (schema : string) (events : list SqlEvent) : list SqlEvent :=
  List.filter (fun event => match event with
                            | Execute _ statement =>
                                String.eqb statement (drop_schema_statement schema)
                            | Commit _ => false
                            end) events.

(** A run that returns: the configurations are served one after the other,
    each turn returns, and each starts from the world the turn before
    left. *)
Inductive DropRun : list SQLAlchemyMultiTenantAsyncConfig -> World -> World -> Prop :=
| DropRun_done w : DropRun [] w w
| DropRun_step config configs w w1 w2 :
    _drop_all_config config w = (Ok tt, w1) ->
    DropRun configs w1 w2 ->
    DropRun (config :: configs) w w2.

(** ** A database server for the concrete runs

    PostgreSQL as far as the statements of drop-all go: the name in
    [DROP SCHEMA IF EXISTS name CASCADE] is an identifier without quotes, so
    it has to begin with a letter or an underscore and go on with letters,
    digits, underscores or dollar signs, else the statement is a syntax
    error; the server folds it to lower case and drops the schema of that
    name, if there is one. *)

Module Postgres.

Local Open Scope nat_scope.

Definition is_letter (c : ascii) : bool :=
  ((65 <=? Slug.code c) && (Slug.code c <=? 90)) ||
  ((97 <=? Slug.code c) && (Slug.code c <=? 122)) ||
  (Slug.code c =? 95).

Definition is_digit (c : ascii) : bool :=
  ((48 <=? Slug.code c) && (Slug.code c <=? 57)) || (Slug.code c =? 36).

Definition is_identifier (name : list ascii) : bool :=
  match name with
  | [] => false
  | c :: rest => is_letter c && forallb (fun d => is_letter d || is_digit d) rest
  end.

(** [l] without the prefix [p], when it begins with it. *)
Fixpoint after (p l : list ascii) : option (list ascii) :=
  match p, l with
  | [], _ => Some l
  | a :: p', b :: l' => if Ascii.eqb a b then after p' l' else None
  | _ :: _, [] => None
  end.

(** The name between [DROP SCHEMA IF EXISTS ] and [ CASCADE]. *)
Definition dropped_name (statement : string) : option (list ascii) :=
  match after (list_ascii_of_string "DROP SCHEMA IF EXISTS ")
              (list_ascii_of_string statement) with
  | Some tail =>
      match after (rev (list_ascii_of_string " CASCADE")) (rev tail) with
      | Some name => Some (rev name)
      | None => None
      end
  | None => None
  end.

Definition execute (url statement : string) (schemas : list string)
    : Result (list string) :=
  match dropped_name statement with
  | Some name =>
      if is_identifier name
      then
        let folded := string_of_list_ascii (map Slug.lower name) in
        Ok (List.filter (fun schema => negb (String.eqb schema folded)) schemas)
      else Raise (ProgrammingError "syntax error")
  | None => Raise (ProgrammingError "syntax error")
  end.

End Postgres.

(** ** Concrete requests and runs *)

Module Demo.

Definition config : SQLAlchemyMultiTenantAsyncConfig :=
  default_config "postgresql+asyncpg://app@db/app".

Definition session_maker : async_sessionmaker :=
  {| maker_bind := get_engine config |}.

Definition state : gmap string async_sessionmaker :=
  {[ "session_maker_class" := session_maker ]}.

Definition fresh : Runtime := {| maker_calls := [] |}.

Definition tenant_request : Scope :=
  {| path_params := {[ "organisation_slug" := "Acme Corp!" ]}; aa_state := ∅ |}.

Definition core_request : Scope :=
  {| path_params := {[ "page" := "2" ]}; aa_state := ∅ |}.

Definition empty_slug_request : Scope :=
  {| path_params := {[ "organisation_slug" := "" ]}; aa_state := ∅ |}.

Definition plugin : SQLAlchemyInitMultiTenantPlugin := {| _config := Single config |}.

Definition app : Litestar :=
  {| plugins := [OtherPlugin "CORSPlugin"; MultiTenant plugin] |}.

Definition bare_app : Litestar :=
  {| plugins := [OtherPlugin "CORSPlugin"] |}.

(** A terminal on which the user will type [lines], and one database with
    the core schema and two tenants. *)
Definition world (lines : list string) : World :=
  {| stdin := lines; console := []; discarded := []; alembic_log := [];
     databases := {[ connection_string config :=
                       ["public"; "core"; "tenant_acme"; "tenantbeta"; "audit"] ]};
     sql_log := []; server := Postgres.execute |}.

(** A configuration whose core schema name begins with the tenant prefix,
    and a database for it. *)
Definition overlapping : SQLAlchemyMultiTenantAsyncConfig := {|
  connection_string := connection_string config;
  session_scope_key := session_scope_key config;
  session_maker_app_state_key := session_maker_app_state_key config;
  alembic_config := alembic_config config;
  core_schema_name := "tenant_core";
  core_revision_name := core_revision_name config;
  tenant_schema_prefix := tenant_schema_prefix config;
  tenant_revision_name := tenant_revision_name config;
  tenant_schema_separator := tenant_schema_separator config
|}.

Definition overlapping_app : Litestar :=
  {| plugins := [MultiTenant {| _config := Single overlapping |}] |}.

Definition world_with (schemas lines : list string) : World :=
  {| stdin := lines; console := []; discarded := []; alembic_log := [];
     databases := {[ connection_string config := schemas ]};
     sql_log := []; server := Postgres.execute |}.

End Demo.

(** ** The other commands of [plugin_commands.py]

    The commands below call the migration engine in ways that [upgrade] and
    [downgrade] do not, and [dump-data] writes tables out.  Their calls are
    kept in a log of their own beside the world of the commands above. *)

Inductive MigrationCall : Type :=
| Current (verbose : bool)
| Init (directory : string) (multidb package : bool)
| Revision (message : string) (autogenerate sql : bool) (head : string) (splice : bool)
    (branch_label version_path rev_id : option string)
| Merge (message revisions : string) (branch_label rev_id : option string)
| Stamp (sql : bool) (revision : string) (tag : option string) (purge : bool).

Record MigrationEvent : Type := {
  event_database : string;
  event_script_location : option string;
  event_call : MigrationCall
}.

(** One call of [dump_tables]: the directory, the database the session
    belongs to and the model classes handed over. *)
Record DumpCall : Type := {
  dump_dir : string;
  dump_database : string;
  dump_models : list string
}.

Record Shell : Type := {
  world : World;
  migration_log : list MigrationEvent;    (* oldest first *)
  dump_log : list DumpCall                (* oldest first *)
}.

Definition Script (A : Type) : Type := Shell -> Result A * Shell.

Definition script_ret {A} (a : A) : Script A := fun sh => (Ok a, sh).

Definition script_then {A B} (m : Script A) (k : A -> Script B) : Script B :=
  fun sh => match m sh with
            | (Ok a, sh') => k a sh'
            | (Raise e, sh') => (Raise e, sh')
            end.

(** A command of the first kind run in the shell: it sees the world only. *)
Definition inside {A} (c : Command A) : Script A :=
  fun sh => let '(r, w) := c (world sh) in
            (r, {| world := w; migration_log := migration_log sh; dump_log := dump_log sh |}).

Notation "x <~ m ;; k" := (script_then m (fun x => k))
  (at level 100, m at next level, right associativity).
Notation "m ~;; k" := (script_then m (fun _ => k))
  (at level 100, right associativity).

Fixpoint for_each_script {A} (l : list A) (body : A -> Script unit) : Script unit :=
  match l with
  | [] => script_ret tt
  | x :: l' => body x ~;; for_each_script l' body
  end.

(** A call of the migration engine through the commands object. *)
Definition migration_run (self : AlembicCommands) (call : MigrationCall) : Script unit :=
  fun sh => (Ok tt,
             {| world := world sh;
                migration_log := migration_log sh ++
                  [ {| event_database := connection_string (sqlalchemy_config self);
                       event_script_location := main_options self !! "script_location";
                       event_call := call |} ];
                dump_log := dump_log sh |}).

(** [rich.prompt.Prompt.ask(text)]: the next line, stripped
    ([process_response]), whatever is left of it; the end of the input
    raises [EOFError]. *)
Definition Prompt_ask (text : string) : Command string :=
  console_rule text ;;;
  (fun w => match stdin w with
            | line :: rest => (Ok (Str.strip line), set_stdin rest w)
            | [] => (Raise EOFError, w)
            end).

(** A migration script as the callback of [make-migrations] sees it: its
    revision and the operations of its upgrade. *)
Record MigrationScript : Type := {
  script_rev_id : string;
  upgrade_ops : list string
}.

(** [UpgradeOps.is_empty]. *)
Definition is_empty (script : MigrationScript) : bool :=
  match upgrade_ops script with [] => true | _ :: _ => false end.

(** The callback [process_revision_directives] of [create_revision], lines
    338-362; the result is the list [directives] as the call leaves it. *)
Definition process_revision_directives (autogenerate : bool)
    (directives : list MigrationScript) : Command (list MigrationScript) :=
  if autogenerate
  then
    first <- lift (first_item directives) ;;
    if is_empty first
    then
      console_rule "[magenta]The generation of a migration file is being skipped because it would result in an empty file." ;;;
      console_rule "[magenta]More information can be found here. https://alembic.sqlalchemy.org/en/latest/autogenerate.html#what-does-autogenerate-detect-and-what-does-it-not-detect" ;;;
      console_rule "[magenta]If you intend to create an empty migration file, use the --no-autogenerate option." ;;;
      ret []
    else ret directives
  else ret directives.

Section MoreRevisionCommands.

Variable new_BadOptionUsage : string -> Result Exception.

Definition show_database_revision (app : Litestar) (revision_type : option string)
    (verbose : bool) : Script unit :=
  inside (console_rule "[yellow]Listing current revision[/]") ~;;
  plugin <~ inside (lift (get_database_migration_plugin app)) ;;
  sqlalchemy_config <~ inside (lift (first_item (config plugin))) ;;
  let valid_revision := [core_revision_name sqlalchemy_config;
                         tenant_revision_name sqlalchemy_config] in
  revision_type <~
    inside (prompt_and_validate_revision new_BadOptionUsage revision_type valid_revision) ;;
  let alembic_commands := new_AlembicCommands sqlalchemy_config in
  let alembic_commands :=
    set_main_option alembic_commands "script_location"
      (script_location (alembic_config sqlalchemy_config) +:+ "/" +:+ revision_type) in
  migration_run alembic_commands (Current verbose).

(** The loop of [init_alembic], lines 259-269.  [directory] is assigned in
    the loop, so each turn sees what the turn before left in it. *)
Fixpoint init_alembic_loop (configs : list SQLAlchemyMultiTenantAsyncConfig)
    (directory : option string) (multidb package no_prompt : bool) : Script unit :=
  match configs with
  | [] => script_ret tt
  | config :: configs' =>
      let directory :=
        match directory with
        | None => script_location (alembic_config config)
        | Some given => given
        end in
      input_confirmed <~
        (if no_prompt then script_ret true
         else inside (Confirm_ask ("[bold]Are you sure you want initialize the project in `" +:+
                                   directory +:+ "`?[/]"))) ;;
      (if (input_confirmed : bool)
       then
         let alembic_commands := new_AlembicCommands config in
         for_each_script [core_revision_name config; tenant_revision_name config]
           (fun schema =>
              migration_run alembic_commands
                (Init (directory +:+ "/" +:+ schema) multidb package))
       else script_ret tt) ~;;
      init_alembic_loop configs' (Some directory) multidb package no_prompt
  end.

Definition init_alembic (app : Litestar) (directory : option string)
    (multidb package no_prompt : bool) : Script unit :=
  inside (console_rule "[yellow]Initializing database migrations.") ~;;
  plugin <~ inside (lift (get_database_migration_plugin app)) ;;
  init_alembic_loop (config plugin) directory multidb package no_prompt.

(** Lines 365-366 and 437-438: the message of a new revision. *)
Definition revision_message (message : option string) (no_prompt : bool) : Command string :=
  match message with
  | None =>
      if no_prompt then ret "autogenerated"
      else Prompt_ask "Please enter a message describing this revision"
  | Some given => ret given
  end.

Definition create_revision (app : Litestar) (revision_type : option string)
    (message : option string) (autogenerate sql : bool) (head : string) (splice : bool)
    (branch_label version_path rev_id : option string) (no_prompt : bool) : Script unit :=
  inside (console_rule "[yellow]Starting database upgrade process[/]") ~;;
  message <~ inside (revision_message message no_prompt) ;;
  plugin <~ inside (lift (get_database_migration_plugin app)) ;;
  sqlalchemy_config <~ inside (lift (first_item (config plugin))) ;;
  let valid_revision := [core_revision_name sqlalchemy_config;
                         tenant_revision_name sqlalchemy_config] in
  revision_type <~
    inside (prompt_and_validate_revision new_BadOptionUsage revision_type valid_revision) ;;
  let alembic_commands := new_AlembicCommands sqlalchemy_config in
  let alembic_commands :=
    set_main_option alembic_commands "script_location"
      (script_location (alembic_config sqlalchemy_config) +:+ "/" +:+ revision_type) in
  migration_run alembic_commands
    (Revision message autogenerate sql head splice branch_label version_path rev_id).

Definition merge_revisions (app : Litestar) (revision_type : option string)
    (revisions : string) (message : option string) (branch_label rev_id : option string)
    (no_prompt : bool) : Script unit :=
  inside (console_rule "[yellow]Starting database upgrade process[/]") ~;;
  message <~ inside (revision_message message no_prompt) ;;
  plugin <~ inside (lift (get_database_migration_plugin app)) ;;
  sqlalchemy_config <~ inside (lift (first_item (config plugin))) ;;
  let valid_revision := [core_revision_name sqlalchemy_config;
                         tenant_revision_name sqlalchemy_config] in
  revision_type <~
    inside (prompt_and_validate_revision new_BadOptionUsage revision_type valid_revision) ;;
  let alembic_commands := new_AlembicCommands sqlalchemy_config in
  let alembic_commands :=
    set_main_option alembic_commands "script_location"
      (script_location (alembic_config sqlalchemy_config) +:+ "/" +:+ revision_type) in
  migration_run alembic_commands (Merge message revisions branch_label rev_id).

Definition stamp_revision (app : Litestar) (revision_type : option string)
    (revision : string) (sql : bool) (tag : option string) (purge no_prompt : bool)
    : Script unit :=
  inside (console_rule "[yellow]Stamping database revision as current[/]") ~;;
  plugin <~ inside (lift (get_database_migration_plugin app)) ;;
  sqlalchemy_config <~ inside (lift (first_item (config plugin))) ;;
  let valid_revision := [core_revision_name sqlalchemy_config;
                         tenant_revision_name sqlalchemy_config] in
  revision_type <~
    inside (prompt_and_validate_revision new_BadOptionUsage revision_type valid_revision) ;;
  input_confirmed <~
    (if no_prompt then script_ret true
     else inside (Confirm_ask ("Are you sure you want to stamp revision as current for " +:+
                               revision_type +:+ " schema?"))) ;;
  if (input_confirmed : bool)
  then
    plugin <~ inside (lift (get_database_migration_plugin app)) ;;
    sqlalchemy_config <~ inside (lift (first_item (config plugin))) ;;
    let valid_revision := [core_revision_name sqlalchemy_config;
                           tenant_revision_name sqlalchemy_config] in
    revision_type <~
      inside (prompt_and_validate_revision new_BadOptionUsage (Some revision_type)
                valid_revision) ;;
    let alembic_commands := new_AlembicCommands sqlalchemy_config in
    let alembic_commands :=
      set_main_option alembic_commands "script_location"
        (script_location (alembic_config sqlalchemy_config) +:+ "/" +:+ revision_type) in
    migration_run alembic_commands (Stamp sql revision tag purge)
  else script_ret tt.

End MoreRevisionCommands.

(** *** dump-data *)

(** A mapper of the ORM registry: its class and the name of the table of
    that class. *)
Record Mapper : Type := {
  class_ : string;
  table_name : string
}.

Definition dump_tables (dump_dir : string) (config : SQLAlchemyMultiTenantAsyncConfig)
    (models : list string) : Script unit :=
  fun sh => (Ok tt,
             {| world := world sh; migration_log := migration_log sh;
                dump_log := dump_log sh ++
                  [ {| dump_dir := dump_dir; dump_database := connection_string config;
                       dump_models := models |} ] |}).

Definition skipping_message (table_name : string) : string :=
  "[red bold]Skipping table '" +:+ table_name +:+
  "' because it is not available in the default registry".

Section DumpData.

(** The two registries of [advanced_alchemy.base] are not part of the
    repository: [metadata_tables config] stands for the table names of
    [metadata_registry.get(config.bind_key)] and [mappers] for
    [orm_registry.mappers]. *)
Variable metadata_tables : SQLAlchemyMultiTenantAsyncConfig -> list string.
Variable mappers : list Mapper.

(** Lines 630-640: the tables to dump for one configuration.  Python walks
    the set of unknown names in an order of its own; here it is the order of
    [elements]. *)
Definition select_tables (all_tables : bool) (table_names : list string)
    (config : SQLAlchemyMultiTenantAsyncConfig) : Script (gset string) :=
  let target_tables : gset string := list_to_set (metadata_tables config) in
  if negb all_tables
  then
    for_each_script (elements (list_to_set table_names ∖ target_tables))
      (fun table_name => inside (console_rule (skipping_message table_name))) ~;;
    script_ret (target_tables ∩ list_to_set table_names)
  else
    inside (console_rule "[yellow bold]Dumping all tables") ~;;
    script_ret target_tables.

(** Line 644. *)
Definition models_of (target_tables : gset string) : list string :=
  map class_ (List.filter (fun mapper => bool_decide (table_name mapper ∈ target_tables)) mappers).

(** The body of the loop over the configurations, lines 630-646. *)
Definition _dump_tables_config (all_tables : bool) (table_names : list string)
    (dump_dir : string) (config : SQLAlchemyMultiTenantAsyncConfig) : Script unit :=
  target_tables <~ select_tables all_tables table_names config ;;
  let models := models_of target_tables in
  dump_tables dump_dir config models ~;;
  inside (console_rule "[green bold]Data dump complete").

Definition _dump_tables (all_tables : bool) (table_names : list string) (dump_dir : string)
    (configs : list SQLAlchemyMultiTenantAsyncConfig) : Script unit :=
  for_each_script configs (_dump_tables_config all_tables table_names dump_dir).

Definition dump_table_data (app : Litestar) (table_names : list string)
    (dump_dir : string) : Script unit :=
  let all_tables := contains table_names "*" in
  declined <~
    (if all_tables
     then
       answer <~ inside (Confirm_ask "[yellow bold]You have specified '*'. Are you sure you want to dump all tables from the database?") ;;
       script_ret (negb answer)
     else script_ret false) ;;
  if (declined : bool)
  then inside (console_rule "[red bold]No data was dumped.")
  else
    plugin <~ inside (lift (get_database_migration_plugin app)) ;;
    let configs := config plugin in
    _dump_tables all_tables table_names dump_dir configs.

End DumpData.

(** *** What the commands are expected to log *)

(** The call of the migration engine for a configuration and a revision
    type: the script directory is the one of the configuration followed by
    the revision type. *)
Definition engine_call (first : SQLAlchemyMultiTenantAsyncConfig) (revision_type : string)
    (op : AlembicOperation) : AlembicCall :=
  {| on_database := connection_string first;
     in_script_location :=
       Some (script_location (alembic_config first) +:+ "/" +:+ revision_type);
     operation := op |}.

Definition migration_event (first : SQLAlchemyMultiTenantAsyncConfig) (revision_type : string)
    (call : MigrationCall) : MigrationEvent :=
  {| event_database := connection_string first;
     event_script_location :=
       Some (script_location (alembic_config first) +:+ "/" +:+ revision_type);
     event_call := call |}.

(** The two [init] calls for a configuration and a directory. *)
Definition init_events (directory : string) (multidb package : bool)
    (config : SQLAlchemyMultiTenantAsyncConfig) : list MigrationEvent :=
  map (fun schema =>
         {| event_database := connection_string config;
            event_script_location := Some (script_location (alembic_config config));
            event_call := Init (directory +:+ "/" +:+ schema) multidb package |})
      [core_revision_name config; tenant_revision_name config].

(** The directory that every turn of the loop of [init_alembic] works with:
    the one given, or else the script location of the first
    configuration. *)
Definition init_directory (directory : option string)
    (configs : list SQLAlchemyMultiTenantAsyncConfig) : string :=
  match directory, configs with
  | Some given, _ => given
  | None, config :: _ => script_location (alembic_config config)
  | None, [] => ""
  end.

(** The call of [dump_tables] expected for a configuration: the classes of
    the mappers whose table is in the metadata of the configuration and is
    wanted. *)
Definition expected_dump (metadata_tables : SQLAlchemyMultiTenantAsyncConfig -> list string)
    (mappers : list Mapper) (directory : string) (wanted : string -> bool)
    (config : SQLAlchemyMultiTenantAsyncConfig) : DumpCall :=
  {| dump_dir := directory;
     dump_database := connection_string config;
     dump_models :=
       map class_
         (List.filter (fun mapper => contains (metadata_tables config) (table_name mapper)
                                     && wanted (table_name mapper)) mappers) |}.

(** A step of a script that only writes to the terminal or dumps tables. *)
Definition quiet (sh sh' : Shell) : Prop :=
  stdin (world sh') = stdin (world sh) /\
  engine_effects (world sh') = engine_effects (world sh) /\
  migration_log sh' = migration_log sh.

(** ** More concrete runs *)

Module Demo2.

Definition second : SQLAlchemyMultiTenantAsyncConfig := {|
  connection_string := "postgresql+asyncpg://app@db/reports";
  session_scope_key := "_reports_db_session";
  session_maker_app_state_key := "reports_session_maker";
  alembic_config := {| script_location := "report_migrations";
                       template_path := ALEMBIC_TEMPLATE_PATH |};
  core_schema_name := "shared";
  core_revision_name := "shared";
  tenant_schema_prefix := "org";
  tenant_revision_name := "org";
  tenant_schema_separator := "_"
|}.

Definition two_databases : SQLAlchemyInitMultiTenantPlugin :=
  {| _config := Sequence [Demo.config; second] |}.

Definition app : Litestar := {| plugins := [MultiTenant two_databases] |}.

Definition shell (lines : list string) : Shell :=
  {| world := Demo.world lines; migration_log := []; dump_log := [] |}.

Definition metadata_tables (config : SQLAlchemyMultiTenantAsyncConfig) : list string :=
  ["user"; "organisation"; "invoice"].

Definition mappers : list Mapper :=
  [ {| class_ := "User"; table_name := "user" |};
    {| class_ := "Organisation"; table_name := "organisation" |};
    {| class_ := "AuditEntry"; table_name := "audit_entry" |} ].

End Demo2.

(** * Properties *)

(** ** Python strings *)

Lemma str_truthy_true s : str_truthy s = true <-> s <> "".
Proof. destruct s; simpl; split; congruence. Qed.

Lemma length_append (s t : string) :
  String.length (s +:+ t) = String.length s + String.length t.
Proof. induction s as [|c s IH]; simpl; [reflexivity | by rewrite IH]. Qed.

(** [startswith] holds exactly of the strings that continue the prefix. *)
Lemma startswith_spec (s p : string) :
  startswith s p = true <-> exists rest, s = p +:+ rest.
Proof.
  unfold startswith. revert s. induction p as [|c p IH]; intros s.
  - split; [intros _; exists s; reflexivity | intros _; by destruct s].
  - destruct s as [|d s]; simpl.
    + split; [discriminate | intros [rest H]; discriminate].
    + destruct (ascii_dec c d) as [->|Hne].
      * rewrite IH. split; intros [rest H]; exists rest; [by rewrite H | by injection H].
      * split; [discriminate | intros [rest H]; injection H; intros; congruence].
Qed.

Lemma contains_In (l : list string) (x : string) : contains l x = true <-> In x l.
Proof.
  induction l as [|y l IH]; simpl.
  - split; [discriminate | tauto].
  - destruct (String.eqb_spec y x) as [->|Hne].
    + split; auto.
    + rewrite IH. split; [auto | intros [H|H]; [congruence | exact H]].
Qed.

(** ** The session provider *)

Lemma singleton_map_truthy (k : option string) (v : string) :
  map_truthy (Some {[ k := v ]}) = true.
Proof.
  unfold map_truthy. rewrite bool_decide_eq_false_2; [reflexivity|].
  apply map_non_empty_singleton.
Qed.

Lemma created_call_session_maker mk kw rt :
  created (snd (call_session_maker mk kw rt)) = created rt ++ [fst (call_session_maker mk kw rt)].
Proof. unfold created, call_session_maker. simpl. by rewrite map_app. Qed.

Section ProviderFacts.

Variable slugify : string -> string -> string.
Variable self : SQLAlchemyMultiTenantAsyncConfig.

Lemma translation_tenant scope slug :
  path_params scope !! "organisation_slug" = Some slug -> slug <> "" ->
  schema_translation_map slugify self scope = Some {[ None := schema_name slugify self slug ]}.
Proof.
  intros Hp Hne. unfold schema_translation_map. rewrite Hp.
  apply str_truthy_true in Hne. by rewrite Hne.
Qed.

Lemma translation_absent scope :
  path_params scope !! "organisation_slug" = None ->
  schema_translation_map slugify self scope = None.
Proof. intros Hp. unfold schema_translation_map. by rewrite Hp. Qed.

Lemma translation_empty_slug scope :
  path_params scope !! "organisation_slug" = Some "" ->
  schema_translation_map slugify self scope = None.
Proof. intros Hp. unfold schema_translation_map. by rewrite Hp. Qed.

(** A cached session is returned as it is, whatever else is in the scope,
    the application state or the runtime. *)
Lemma provide_session_cached state scope rt session :
  get_aa_scope_state scope (session_scope_key self) = Some session ->
  provide_session slugify self state scope rt = (Ok session, scope, rt).
Proof. intros Hc. unfold provide_session. by rewrite Hc. Qed.

Lemma provide_sessions_cached n state scope rt session :
  get_aa_scope_state scope (session_scope_key self) = Some session ->
  provide_sessions slugify n self state scope rt = (repeat (Ok session) n, scope, rt).
Proof.
  intros Hc. induction n as [|n IH]; simpl; [reflexivity|].
  rewrite (provide_session_cached _ _ _ _ Hc), IH. reflexivity.
Qed.

Lemma get_set_aa_scope_state scope key session :
  get_aa_scope_state (set_aa_scope_state scope key session) key = Some session.
Proof. unfold get_aa_scope_state, set_aa_scope_state. simpl. apply lookup_insert_eq. Qed.

(** Without a cached session the provider calls the session maker once,
    with the bind that the translation mapping asks for. *)
Lemma provide_session_uncached state scope rt session_maker :
  get_aa_scope_state scope (session_scope_key self) = None ->
  state !! session_maker_app_state_key self = Some session_maker ->
  let kw := match schema_translation_map slugify self scope with
            | Some m => if map_truthy (Some m)
                        then Some (execution_options (get_engine self) m) else None
            | None => None
            end in
  let call := call_session_maker session_maker kw rt in
  provide_session slugify self state scope rt =
    (Ok (fst call), set_aa_scope_state scope (session_scope_key self) (fst call), snd call).
Proof.
  intros Hc Hs. unfold provide_session. rewrite Hc, Hs.
  destruct (schema_translation_map slugify self scope) as [m|]; [|reflexivity].
  destruct (map_truthy (Some m)); reflexivity.
Qed.

End ProviderFacts.

(** C1: in a scope without a cached session, one call of the provider makes
    exactly one session and stores it under [session_scope_key]; any number
    of later calls for that scope return this very session, leave the scope
    as it is and make no session. *)
Theorem provide_session_caches_once slugify self state scope rt session_maker :
  get_aa_scope_state scope (session_scope_key self) = None ->
  state !! session_maker_app_state_key self = Some session_maker ->
  exists session scope' rt',
    provide_session slugify self state scope rt = (Ok session, scope', rt') /\
    created rt' = created rt ++ [session] /\
    aa_state scope' = <[session_scope_key self := session]> (aa_state scope) /\
    (forall n state2 rt2,
        provide_sessions slugify n self state2 scope' rt2
        = (repeat (Ok session) n, scope', rt2)).
Proof.
  intros Hc Hs.
  pose proof (provide_session_uncached slugify self state scope rt session_maker Hc Hs) as Hrun.
  cbv zeta in Hrun. eexists _, _, _. split; [exact Hrun|].
  split; [apply created_call_session_maker|]. split; [reflexivity|].
  intros n state2 rt2. apply provide_sessions_cached, get_set_aa_scope_state.
Qed.

Lemma provide_session_caches_once_witness :
  get_aa_scope_state Demo.tenant_request (session_scope_key Demo.config) = None /\
  Demo.state !! session_maker_app_state_key Demo.config = Some Demo.session_maker /\
  exists session scope' rt',
    provide_session Slug.slugify Demo.config Demo.state Demo.tenant_request Demo.fresh
    = (Ok session, scope', rt') /\
    created rt' = created Demo.fresh ++ [session] /\
    aa_state scope' = <[session_scope_key Demo.config := session]> (aa_state Demo.tenant_request) /\
    (forall n state2 rt2,
        provide_sessions Slug.slugify n Demo.config state2 scope' rt2
        = (repeat (Ok session) n, scope', rt2)).
Proof.
  split; [reflexivity|]. split; [reflexivity|].
  apply (provide_session_caches_once Slug.slugify Demo.config Demo.state
           Demo.tenant_request Demo.fresh Demo.session_maker); reflexivity.
Defined.

(** C2, as the code has it: for a non-empty slug in the path parameter the
    schema of the translation mapping is the tenant prefix immediately
    followed by the slugified slug; the separator is handed to [slugify],
    which writes it between the words of the slug, and is not put between
    prefix and slug. *)
Theorem derived_schema_name slugify self scope organisation_slug :
  path_params scope !! "organisation_slug" = Some organisation_slug ->
  organisation_slug <> "" ->
  schema_translation_map slugify self scope =
    Some {[ None := tenant_schema_prefix self +:+
                    slugify organisation_slug (tenant_schema_separator self) ]}.
Proof. intros Hp Hne. exact (translation_tenant slugify self scope organisation_slug Hp Hne). Qed.

Lemma derived_schema_name_witness :
  path_params Demo.tenant_request !! "organisation_slug" = Some "Acme Corp!" /\
  "Acme Corp!" <> "" /\
  schema_translation_map Slug.slugify Demo.config Demo.tenant_request =
    Some {[ None := tenant_schema_prefix Demo.config +:+
                    Slug.slugify "Acme Corp!" (tenant_schema_separator Demo.config) ]}.
Proof.
  split; [reflexivity|]. split; [discriminate|].
  apply (derived_schema_name Slug.slugify Demo.config Demo.tenant_request "Acme Corp!");
    [reflexivity | discriminate].
Defined.

(** C2 as the specification words it fails: with the default prefix and
    separator the slug [Acme Corp!] gives [tenantacme_corp], and the shape
    [{prefix}{separator}{slug}] would be [tenant_acme_corp]. *)
Lemma schema_name_lacks_separator :
  schema_name Slug.slugify Demo.config "Acme Corp!" = "tenantacme_corp" /\
  spec_schema_name Slug.slugify Demo.config "Acme Corp!" = "tenant_acme_corp" /\
  schema_translation_map Slug.slugify Demo.config Demo.tenant_request
  <> Some {[ None := spec_schema_name Slug.slugify Demo.config "Acme Corp!" ]}.
Proof.
  split; [reflexivity|]. split; [reflexivity|].
  rewrite (translation_tenant Slug.slugify Demo.config Demo.tenant_request "Acme Corp!");
    [|reflexivity|discriminate].
  intros H.
  apply (f_equal (fun o : option (gmap (option string) string) => m ← o; m !! None)) in H.
  cbn [mbind option_bind] in H. rewrite !lookup_singleton_eq in H.
  vm_compute in H. discriminate.
Qed.

(** Whatever [slugify] computes, a non-empty separator keeps the derived name
    and the specification's shape apart: they differ in length. *)
Lemma schema_name_never_spec_shape slugify self organisation_slug :
  tenant_schema_separator self <> "" ->
  schema_name slugify self organisation_slug <> spec_schema_name slugify self organisation_slug.
Proof.
  intros Hsep H. apply (f_equal String.length) in H.
  unfold schema_name, spec_schema_name in H. rewrite !length_append in H.
  destruct (tenant_schema_separator self); [congruence | simpl in H; lia].
Qed.

(** C3: for a request with a non-empty [organisation_slug] and no cached
    session, the provider builds the mapping from [None] to the derived
    schema name, calls the session maker once with the engine carrying that
    mapping as [bind], and stores the session it gets in the scope state
    under [session_scope_key]: the scope it leaves is the old one with that
    entry written, and looking the key up in it gives the session. *)
Theorem provide_session_binds_tenant_schema
    slugify self state scope rt session_maker organisation_slug :
  path_params scope !! "organisation_slug" = Some organisation_slug ->
  organisation_slug <> "" ->
  get_aa_scope_state scope (session_scope_key self) = None ->
  state !! session_maker_app_state_key self = Some session_maker ->
  let mapping : gmap (option string) string :=
    {[ None := schema_name slugify self organisation_slug ]} in
  let engine := execution_options (get_engine self) mapping in
  let session := {| session_id := length (maker_calls rt); bind := engine |} in
  let cached := {| path_params := path_params scope;
                   aa_state := <[session_scope_key self := session]> (aa_state scope) |} in
  schema_translation_map slugify self scope = Some mapping /\
  provide_session slugify self state scope rt =
    (Ok session,
     cached,
     {| maker_calls := maker_calls rt ++
          [ {| call_maker := session_maker; call_bind := Some engine;
               call_result := session |} ] |}) /\
  aa_state cached !! session_scope_key self = Some session /\
  get_aa_scope_state cached (session_scope_key self) = Some session /\
  schema_translate_map (bind session) = Some mapping.
Proof.
  intros Hp Hne Hc Hs mapping engine session cached.
  pose proof (translation_tenant slugify self scope organisation_slug Hp Hne) as Ht.
  split; [exact Ht|]. split; [|split; [|split]].
  - rewrite (provide_session_uncached slugify self state scope rt session_maker Hc Hs).
    rewrite Ht, singleton_map_truthy. reflexivity.
  - apply lookup_insert_eq.
  - unfold get_aa_scope_state. apply lookup_insert_eq.
  - reflexivity.
Qed.

Lemma provide_session_binds_tenant_schema_witness :
  path_params Demo.tenant_request !! "organisation_slug" = Some "Acme Corp!" /\
  "Acme Corp!" <> "" /\
  get_aa_scope_state Demo.tenant_request (session_scope_key Demo.config) = None /\
  Demo.state !! session_maker_app_state_key Demo.config = Some Demo.session_maker /\
  let session :=
    {| session_id := 0;
       bind := {| engine_url := connection_string Demo.config;
                  schema_translate_map := Some {[ None := "tenantacme_corp" ]} |} |} in
  fst (fst (provide_session Slug.slugify Demo.config Demo.state Demo.tenant_request
              Demo.fresh)) = Ok session /\
  aa_state (snd (fst (provide_session Slug.slugify Demo.config Demo.state
                        Demo.tenant_request Demo.fresh)))
    !! session_scope_key Demo.config = Some session.
Proof.
  split; [reflexivity|]. split; [discriminate|]. split; [reflexivity|]. split; [reflexivity|].
  destruct (provide_session_binds_tenant_schema Slug.slugify Demo.config Demo.state
              Demo.tenant_request Demo.fresh Demo.session_maker "Acme Corp!"
              eq_refl ltac:(discriminate) eq_refl eq_refl) as (_ & Hrun & Hcached & _).
  cbv zeta. rewrite Hrun. split; [reflexivity | exact Hcached].
Defined.

(** C4: for a request without the [organisation_slug] key and without a
    cached session, the provider calls the session maker with no argument,
    so no translation mapping is involved and the session has the bind of
    the maker; the call returns, it does not raise. *)
Theorem provide_session_without_tenant slugify self state scope rt session_maker :
  path_params scope !! "organisation_slug" = None ->
  get_aa_scope_state scope (session_scope_key self) = None ->
  state !! session_maker_app_state_key self = Some session_maker ->
  let session := {| session_id := length (maker_calls rt);
                    bind := maker_bind session_maker |} in
  schema_translation_map slugify self scope = None /\
  provide_session slugify self state scope rt =
    (Ok session,
     set_aa_scope_state scope (session_scope_key self) session,
     {| maker_calls := maker_calls rt ++
          [ {| call_maker := session_maker; call_bind := None;
               call_result := session |} ] |}).
Proof.
  intros Hp Hc Hs session.
  pose proof (translation_absent slugify self scope Hp) as Ht.
  split; [exact Ht|].
  rewrite (provide_session_uncached slugify self state scope rt session_maker Hc Hs).
  rewrite Ht. reflexivity.
Qed.

Lemma provide_session_without_tenant_witness :
  path_params Demo.core_request !! "organisation_slug" = None /\
  get_aa_scope_state Demo.core_request (session_scope_key Demo.config) = None /\
  Demo.state !! session_maker_app_state_key Demo.config = Some Demo.session_maker /\
  schema_translation_map Slug.slugify Demo.config Demo.core_request = None.
Proof.
  split; [reflexivity|]. split; [reflexivity|]. split; [reflexivity|].
  apply (provide_session_without_tenant Slug.slugify Demo.config Demo.state
           Demo.core_request Demo.fresh Demo.session_maker); reflexivity.
Defined.

(** C9: when [organisation_slug] is bound to the empty string the provider
    derives no schema and no mapping, and the call gives the same result,
    the same cached sessions and the same session-maker calls as for the
    request without that parameter.  In particular, when no session is
    cached, the session maker is called once and without [bind], the session
    has the bind of the maker and is stored under [session_scope_key]. *)
Theorem provide_session_empty_slug slugify self state scope rt :
  path_params scope !! "organisation_slug" = Some "" ->
  schema_translation_map slugify self scope = None /\
  schema_translation_map slugify self (without_slug scope) = None /\
  (let '(result, scope', rt') := provide_session slugify self state scope rt in
   let '(result0, scope0, rt0) := provide_session slugify self state (without_slug scope) rt in
   result = result0 /\ aa_state scope' = aa_state scope0 /\ rt' = rt0) /\
  (forall session_maker,
      get_aa_scope_state scope (session_scope_key self) = None ->
      state !! session_maker_app_state_key self = Some session_maker ->
      let session := {| session_id := length (maker_calls rt);
                        bind := maker_bind session_maker |} in
      provide_session slugify self state scope rt =
        (Ok session,
         {| path_params := path_params scope;
            aa_state := <[session_scope_key self := session]> (aa_state scope) |},
         {| maker_calls := maker_calls rt ++
              [ {| call_maker := session_maker; call_bind := None;
                   call_result := session |} ] |})).
Proof.
  intros Hp.
  assert (Ht : schema_translation_map slugify self scope = None)
    by exact (translation_empty_slug slugify self scope Hp).
  assert (Ht0 : schema_translation_map slugify self (without_slug scope) = None).
  { apply translation_absent. unfold without_slug. simpl. apply lookup_delete_eq. }
  split; [exact Ht|]. split; [exact Ht0|]. split.
  - unfold provide_session. rewrite Ht, Ht0.
    change (get_aa_scope_state (without_slug scope) (session_scope_key self))
      with (get_aa_scope_state scope (session_scope_key self)).
    destruct (get_aa_scope_state scope (session_scope_key self)); [by repeat split|].
    destruct (state !! session_maker_app_state_key self); by repeat split.
  - intros session_maker Hc Hs session.
    rewrite (provide_session_uncached slugify self state scope rt session_maker Hc Hs).
    rewrite Ht. reflexivity.
Qed.

Lemma provide_session_empty_slug_witness :
  path_params Demo.empty_slug_request !! "organisation_slug" = Some "" /\
  schema_translation_map Slug.slugify Demo.config Demo.empty_slug_request = None /\
  let session := {| session_id := 0; bind := get_engine Demo.config |} in
  provide_session Slug.slugify Demo.config Demo.state Demo.empty_slug_request Demo.fresh =
    (Ok session,
     {| path_params := path_params Demo.empty_slug_request;
        aa_state := <[session_scope_key Demo.config := session]> ∅ |},
     {| maker_calls := [ {| call_maker := Demo.session_maker; call_bind := None;
                            call_result := session |} ] |}).
Proof.
  split; [reflexivity|].
  destruct (provide_session_empty_slug Slug.slugify Demo.config Demo.state
              Demo.empty_slug_request Demo.fresh eq_refl) as (Hnone & _ & _ & Hrun).
  split; [exact Hnone|]. exact (Hrun Demo.session_maker eq_refl eq_refl).
Defined.

(** ** The plugin lookup and the revision type *)

Lemma _plugins_by_type_Some ps found p :
  _plugins_by_type ps found = Some p -> found = Some p \/ In (MultiTenant p) ps.
Proof.
  revert found. induction ps as [|q ps IH]; intros found H; simpl in H; [by left|].
  destruct q as [p'|name]; apply IH in H as [H|H]; simpl; auto.
  injection H as ->. auto.
Qed.

Lemma _plugins_by_type_None ps found :
  _plugins_by_type ps found = None <-> found = None /\ forall p, ~ In (MultiTenant p) ps.
Proof.
  revert found. induction ps as [|q ps IH]; intros found; simpl.
  - split; [intros ->; auto | tauto].
  - destruct q as [p'|name]; rewrite IH.
    + split; [intros [H _]; discriminate | intros [_ H]; exfalso; apply (H p'); auto].
    + split; intros [Hf Hn]; (split; [exact Hf|]); intros p.
      * intros [H|H]; [discriminate | exact (Hn p H)].
      * intros H. apply (Hn p). auto.
Qed.

(** C7: the lookup raises [ImproperConfigurationError], and nothing else,
    exactly when no plugin of the multi-tenant class is registered on the
    application; otherwise it returns a registered plugin of that class. *)
Theorem get_database_migration_plugin_spec app :
  (get_database_migration_plugin app = Raise (ImproperConfigurationError missing_plugin_msg)
   <-> forall p, ~ In (MultiTenant p) (plugins app)) /\
  (forall e, get_database_migration_plugin app = Raise e ->
             e = ImproperConfigurationError missing_plugin_msg) /\
  (forall p, get_database_migration_plugin app = Ok p -> In (MultiTenant p) (plugins app)) /\
  (is_ok (get_database_migration_plugin app) = true
   <-> exists p, In (MultiTenant p) (plugins app)).
Proof.
  unfold get_database_migration_plugin, plugins_get.
  destruct (_plugins_by_type (plugins app) None) as [p|] eqn:E.
  - apply _plugins_by_type_Some in E as [E|E]; [discriminate|].
    repeat split; try discriminate.
    + intros H. exfalso. exact (H p E).
    + intros q [= <-]. exact E.
    + intros _. eauto.
  - apply _plugins_by_type_None in E as [_ E].
    repeat split; try discriminate; auto.
    + intros e [= <-]. reflexivity.
    + intros [p H]. exfalso. exact (E p H).
Qed.

(** C5: the check answers true exactly when the revision type is an element
    of the list of labels; for the two configured labels, exactly when it is
    one of the two. *)
Theorem is_valid_revision_type_iff revision_type valid_revision_type :
  (is_valid_revision_type revision_type valid_revision_type = true
   <-> In revision_type valid_revision_type) /\
  (forall core tenant,
      is_valid_revision_type revision_type [core; tenant] = true
      <-> revision_type = core \/ revision_type = tenant).
Proof.
  assert (H : forall l, is_valid_revision_type revision_type l = true <-> In revision_type l).
  { intros l. unfold is_valid_revision_type. rewrite <- contains_In.
    destruct (contains l revision_type); tauto. }
  split; [apply H|]. intros core tenant. rewrite H. simpl.
  split; [intros [<-|[<-|[]]]; auto | intros [->| ->]; auto].
Qed.

Lemma is_valid_In revision_type valid :
  is_valid_revision_type revision_type valid = true <-> In revision_type valid.
Proof.
  unfold is_valid_revision_type. rewrite <- contains_In.
  destruct (contains valid revision_type); tauto.
Qed.

Lemma read_choice_valid choices lines value rest :
  read_choice choices lines = Some (value, rest) -> In value choices /\ value <> "".
Proof.
  induction lines as [|line lines IH]; simpl; [discriminate|].
  destruct (str_truthy line && contains choices line) eqn:E; [|exact IH].
  intros [= <- <-]. apply andb_true_iff in E as [Ht Hc].
  split; [by apply contains_In | by apply str_truthy_true].
Qed.

(** When no revision type is given, or the empty one, the user is asked. *)
Lemma asked new_BadOptionUsage (empty : bool) valid w :
  prompt_and_validate_revision new_BadOptionUsage (if empty then Some "" else None) valid w
  = match read_choice valid (stdin w) with
    | Some (value, rest) => (Ok value, set_stdin rest (snd (console_rule "Revision type" w)))
    | None => (Raise Abort, set_stdin [] (snd (console_rule "Revision type" w)))
    end.
Proof.
  assert (H : prompt_and_validate_revision new_BadOptionUsage
                (if empty then Some "" else None) valid w
              = and_then (prompt "Revision type" valid)
                  (fun revision_type =>
                     if negb (is_valid_revision_type revision_type valid)
                     then message <- lift (format_revision_types valid) ;;
                          error <- lift (new_BadOptionUsage message) ;;
                          discard error ;;; ret revision_type
                     else ret revision_type) w)
    by (destruct empty; reflexivity).
  rewrite H. unfold and_then at 1. unfold prompt, and_then at 1. simpl.
  destruct (read_choice valid (stdin w)) as [[value rest]|] eqn:E; [|reflexivity].
  apply read_choice_valid in E as [Hin _]. apply is_valid_In in Hin. rewrite Hin. reflexivity.
Qed.

Lemma invalid_given_raises revision_type core tenant more w :
  revision_type <> "" ->
  ~ In revision_type (core :: tenant :: more) ->
  prompt_and_validate_revision click_BadOptionUsage (Some revision_type)
    (core :: tenant :: more) w
  = (Raise (TypeError "BadOptionUsage.__init__() missing 1 required positional argument: 'message'"),
     w).
Proof.
  intros Hne Hin. apply str_truthy_true in Hne.
  assert (Hv : is_valid_revision_type revision_type (core :: tenant :: more) = false).
  { unfold is_valid_revision_type.
    destruct (contains (core :: tenant :: more) revision_type) eqn:E; [|reflexivity].
    apply contains_In in E. contradiction. }
  unfold prompt_and_validate_revision, and_then. rewrite Hne. unfold ret at 1.
  rewrite Hv. reflexivity.
Qed.

(** C6, as the code has it: for a revision type that is given, not empty
    and not among the labels, nobody is asked and nothing is written, read
    or changed; no [BadOptionUsage] is raised, and no revision type other
    than the one given is returned.  The empty string is taken for no
    revision type at all: the call does what it does for [None], it asks
    the user. *)
Theorem prompt_and_validate_revision_invalid revision_type valid w :
  revision_type <> "" ->
  ~ In revision_type valid ->
  let run := prompt_and_validate_revision click_BadOptionUsage (Some revision_type) valid w in
  snd run = w /\
  (forall message, fst run <> Raise (BadOptionUsage message)) /\
  (forall value, fst run = Ok value -> value = revision_type) /\
  (forall labels w0,
      let empty := prompt_and_validate_revision click_BadOptionUsage (Some "") labels w0 in
      empty = prompt_and_validate_revision click_BadOptionUsage None labels w0 /\
      console (snd empty) = console w0 ++ ["Revision type"] /\
      discarded (snd empty) = discarded w0 /\
      forall value, fst empty = Ok value -> In value labels /\ value <> "").
Proof.
  intros Hne Hin. cbv zeta.
  assert (Hrun : exists e,
             prompt_and_validate_revision click_BadOptionUsage (Some revision_type) valid w
             = (Raise e, w) /\ forall message, e <> BadOptionUsage message).
  { apply str_truthy_true in Hne.
    assert (Hv : is_valid_revision_type revision_type valid = false).
    { destruct (is_valid_revision_type revision_type valid) eqn:E; [|reflexivity].
      apply is_valid_In in E. contradiction. }
    unfold prompt_and_validate_revision, and_then. rewrite Hne. unfold ret at 1. rewrite Hv.
    destruct valid as [|core [|tenant more]]; eexists; (split; [reflexivity | discriminate]). }
  destruct Hrun as (e & -> & He). cbn [fst snd].
  split; [reflexivity|]. split; [intros message [= ->]; by apply (He message)|].
  split; [discriminate|].
  intros labels w0. split; [reflexivity|].
  rewrite (asked click_BadOptionUsage true labels w0).
  destruct (read_choice labels (stdin w0)) as [[value rest]|] eqn:E; cbn [fst snd].
  - split; [reflexivity|]. split; [reflexivity|].
    intros v [= <-]. exact (read_choice_valid labels (stdin w0) value rest E).
  - split; [reflexivity|]. split; [reflexivity | discriminate].
Qed.

Lemma prompt_and_validate_revision_invalid_witness :
  "bogus" <> "" /\ ~ In "bogus" ["core"; "tenant"] /\
  snd (prompt_and_validate_revision click_BadOptionUsage (Some "bogus") ["core"; "tenant"]
         (Demo.world ["core"])) = Demo.world ["core"].
Proof.
  split; [discriminate|].
  split; [intros [H|[H|[]]]; discriminate|].
  apply (prompt_and_validate_revision_invalid "bogus" ["core"; "tenant"] (Demo.world ["core"])).
  - discriminate.
  - intros [H|[H|[]]]; discriminate.
Defined.

(** C6 as the specification words it fails twice.  The empty string is not
    [None] and not a label, yet the user is asked and the answer is
    returned in its place, with no error object built.  And a revision type
    that is not a label is not returned: the call of the constructor with
    one argument raises [TypeError]. *)
Lemma empty_revision_type_is_prompted :
  let run := prompt_and_validate_revision click_BadOptionUsage (Some "")
               ["core"; "tenant"] (Demo.world ["tenant"]) in
  let invalid := prompt_and_validate_revision click_BadOptionUsage (Some "bogus")
                   ["core"; "tenant"] (Demo.world []) in
  ~ In "" ["core"; "tenant"] /\
  fst run = Ok "tenant" /\
  fst run <> Ok "" /\
  discarded (snd run) = [] /\
  console (snd run) = ["Revision type"] /\
  ~ In "bogus" ["core"; "tenant"] /\
  fst invalid
  = Raise (TypeError "BadOptionUsage.__init__() missing 1 required positional argument: 'message'") /\
  fst invalid <> Ok "bogus" /\
  discarded (snd invalid) = [].
Proof.
  cbv zeta. split; [intros [H|[H|[]]]; discriminate|].
  split; [reflexivity|]. split; [vm_compute; discriminate|].
  split; [reflexivity|]. split; [reflexivity|].
  split; [intros [H|[H|[]]]; discriminate|].
  split; [reflexivity|]. split; [vm_compute; discriminate | reflexivity].
Qed.

(** ** drop-all and the confirmation prompts *)

Lemma tenant_schemas_spec config all_schemas schema :
  In schema (tenant_schemas config all_schemas) <->
  In schema all_schemas /\ exists rest, schema = tenant_schema_prefix config +:+ rest.
Proof. unfold tenant_schemas. by rewrite filter_In, startswith_spec. Qed.

Lemma append_inj_l (p s t : string) : p +:+ s = p +:+ t -> s = t.
Proof. induction p as [|c p IH]; simpl; [auto | intros [= H]; auto]. Qed.

Lemma append_inj_r (s t q : string) : s +:+ q = t +:+ q -> s = t.
Proof.
  revert t. induction s as [|c s IH]; intros [|d t] H.
  - reflexivity.
  - apply (f_equal String.length) in H. rewrite !length_append in H. simpl in H. lia.
  - apply (f_equal String.length) in H. rewrite !length_append in H. simpl in H. lia.
  - injection H as -> H. by rewrite (IH t H).
Qed.

Lemma drop_schema_statement_inj a b :
  drop_schema_statement a = drop_schema_statement b -> a = b.
Proof. unfold drop_schema_statement. intros H. by apply append_inj_l, append_inj_r in H. Qed.

Lemma run_statements_app execute l1 l2 schemas :
  run_statements execute (l1 ++ l2) schemas
  = match run_statements execute l1 schemas with
    | Ok schemas' => run_statements execute l2 schemas'
    | Raise e => Raise e
    end.
Proof.
  revert schemas. induction l1 as [|statement l1 IH]; intros schemas; simpl; [reflexivity|].
  destruct (execute statement schemas); [apply IH | reflexivity].
Qed.

Lemma run_events_app execute url l1 l2 schemas :
  run_events execute url (l1 ++ l2) schemas
  = run_events execute url l1 schemas ++
    match run_statements execute l1 schemas with
    | Ok schemas' => run_events execute url l2 schemas'
    | Raise _ => []
    end.
Proof.
  revert schemas. induction l1 as [|statement l1 IH]; intros schemas; simpl; [reflexivity|].
  destruct (execute statement schemas); [by rewrite IH | reflexivity].
Qed.

Lemma run_events_returned execute url statements schemas final :
  run_statements execute statements schemas = Ok final ->
  run_events execute url statements schemas
  = flat_map (fun statement => [Execute url statement; Commit url]) statements.
Proof.
  revert schemas. induction statements as [|statement statements IH]; intros schemas; simpl;
    [reflexivity|].
  destruct (execute statement schemas) as [schemas'|e]; [|discriminate].
  intros H. by rewrite (IH schemas' H).
Qed.

Lemma flat_map_map {A B C} (f : B -> list C) (g : A -> B) (l : list A) :
  flat_map f (map g l) = flat_map (fun x => f (g x)) l.
Proof. induction l as [|x l IH]; simpl; [reflexivity | by rewrite IH]. Qed.

Lemma for_each_cons {A} (x : A) (l : list A) (body : A -> Command unit) w :
  for_each (x :: l) body w
  = match body x w with
    | (Ok _, w') => for_each l body w'
    | (Raise e, w') => (Raise e, w')
    end.
Proof. reflexivity. Qed.

(** One statement and its commit.  The server decides: when it accepts the
    statement, the schemas it answers with replace the ones of the database
    and the commit follows; when it raises, the error goes up and the
    schemas stay. *)
Lemma drop_and_commit engine schema w :
  let url := engine_url engine in
  let step := (execute_drop_schema engine schema ;;; commit engine) w in
  alembic_log (snd step) = alembic_log w /\
  server (snd step) = server w /\
  (forall other, other <> url -> databases (snd step) !! other = databases w !! other) /\
  match server w url (drop_schema_statement schema) (default [] (databases w !! url)) with
  | Ok schemas =>
      fst step = Ok tt /\
      sql_log (snd step)
      = sql_log w ++ [Execute url (drop_schema_statement schema); Commit url] /\
      databases (snd step) !! url = Some schemas
  | Raise e =>
      fst step = Raise e /\
      sql_log (snd step) = sql_log w ++ [Execute url (drop_schema_statement schema)] /\
      databases (snd step) = databases w
  end.
Proof.
  cbv zeta. unfold and_then, execute_drop_schema, commit.
  destruct (server w (engine_url engine) (drop_schema_statement schema)
              (default [] (databases w !! engine_url engine))) as [schemas|e]; simpl.
  - split; [reflexivity|]. split; [reflexivity|]. split.
    + intros other Hne. by apply lookup_insert_ne.
    + split; [reflexivity|]. split; [by rewrite <- app_assoc | apply lookup_insert_eq].
  - split; [reflexivity|]. split; [reflexivity|]. split; [reflexivity|].
    split; [reflexivity|]. split; reflexivity.
Qed.

(** The loop over the tenant schemas: it raises exactly when the server
    rejects one of the statements, with the error of the server, and the
    statement rejected is the last one sent; when it returns, every schema
    of the list got its statement and its commit, in the order of the list,
    and the database holds what the server made of these statements. *)
Lemma tenant_loop engine schemas w :
  let url := engine_url engine in
  let statements := map drop_schema_statement schemas in
  let before := default [] (databases w !! url) in
  let run := for_each schemas
               (fun schema => execute_drop_schema engine schema ;;; commit engine) w in
  alembic_log (snd run) = alembic_log w /\
  server (snd run) = server w /\
  (forall other, other <> url -> databases (snd run) !! other = databases w !! other) /\
  sql_log (snd run) = sql_log w ++ run_events (server w url) url statements before /\
  match run_statements (server w url) statements before with
  | Ok final => fst run = Ok tt /\ default [] (databases (snd run) !! url) = final
  | Raise e => fst run = Raise e
  end.
Proof.
  cbv zeta. revert w. induction schemas as [|schema schemas IH]; intros w.
  - cbn [for_each map run_statements run_events]. unfold ret. cbn [fst snd].
    rewrite app_nil_r. repeat split; reflexivity.
  - rewrite for_each_cons. cbn [map run_statements run_events].
    destruct (drop_and_commit engine schema w) as (Hal & Hs & Hother & Hstep).
    cbv zeta in Hstep.
    destruct ((execute_drop_schema engine schema ;;; commit engine) w) as [r w1].
    cbn [fst snd] in *.
    destruct (server w (engine_url engine) (drop_schema_statement schema)
                (default [] (databases w !! engine_url engine))) as [schemas1|e].
    + destruct Hstep as (-> & Hlog & Hdb). cbv iota beta.
      destruct (IH w1) as (Hal' & Hs' & Hother' & Hlog' & Hrun).
      rewrite Hal', Hs', Hal, Hs. split; [reflexivity|]. split; [reflexivity|]. split.
      { intros other Hne. rewrite (Hother' other Hne). by apply Hother. }
      rewrite Hs, Hdb in Hrun, Hlog'.
      change (default [] (Some schemas1)) with schemas1 in Hrun, Hlog'.
      split; [|exact Hrun].
      rewrite Hlog', Hlog, <- app_assoc. reflexivity.
    + destruct Hstep as (-> & Hlog & Hdb). cbn [fst snd].
      split; [exact Hal|]. split; [exact Hs|]. split; [|split; [exact Hlog | reflexivity]].
      intros other _. by rewrite Hdb.
Qed.

Lemma drop_events_by_schema config all_schemas :
  drop_events config all_schemas
  = flat_map (fun schema => [Execute (connection_string config) (drop_schema_statement schema);
                             Commit (connection_string config)])
             (tenant_schemas config all_schemas)
    ++ [Execute (connection_string config) (drop_schema_statement (core_schema_name config));
        Commit (connection_string config)].
Proof.
  unfold drop_events, drop_statements. rewrite flat_map_app, flat_map_map. reflexivity.
Qed.

Lemma _drop_all_config_run config w :
  _drop_all_config config w
  = match for_each (tenant_schemas config (default [] (databases w !! connection_string config)))
            (fun schema => execute_drop_schema (get_engine config) schema ;;;
                           commit (get_engine config)) w with
    | (Ok _, w1) =>
        (execute_drop_schema (get_engine config) (core_schema_name config) ;;;
         commit (get_engine config)) w1
    | (Raise e, w1) => (Raise e, w1)
    end.
Proof. reflexivity. Qed.

(** The turn of one configuration.  It raises exactly when the server
    rejects one of its statements, and sends nothing after that one; when
    it returns, the statements are the ones of [drop_statements], each with
    its commit, and the database holds what the server made of them. *)
Lemma _drop_all_config_spec config w :
  let url := connection_string config in
  let all_schemas := default [] (databases w !! url) in
  let run := _drop_all_config config w in
  alembic_log (snd run) = alembic_log w /\
  server (snd run) = server w /\
  (forall other, other <> url -> databases (snd run) !! other = databases w !! other) /\
  sql_log (snd run)
  = sql_log w ++ run_events (server w url) url (drop_statements config all_schemas) all_schemas /\
  match run_statements (server w url) (drop_statements config all_schemas) all_schemas with
  | Ok final => fst run = Ok tt /\ databases (snd run) !! url = Some final
  | Raise e => fst run = Raise e
  end.
Proof.
  cbv zeta. rewrite _drop_all_config_run.
  set (all_schemas := default [] (databases w !! connection_string config)).
  destruct (tenant_loop (get_engine config) (tenant_schemas config all_schemas) w)
    as (Hal & Hs & Hother & Hlog & Hloop).
  cbv zeta in Hloop, Hlog. cbn [engine_url get_engine] in Hloop, Hlog, Hother.
  fold all_schemas in Hloop, Hlog.
  destruct (for_each (tenant_schemas config all_schemas) _ w) as [r w1].
  cbn [fst snd] in *.
  unfold drop_statements. rewrite run_statements_app, run_events_app.
  change (map (fun schema => "DROP SCHEMA IF EXISTS " +:+ schema +:+ " CASCADE")
              (tenant_schemas config all_schemas))
    with (map drop_schema_statement (tenant_schemas config all_schemas)).
  destruct (run_statements (server w (connection_string config))
              (map drop_schema_statement (tenant_schemas config all_schemas)) all_schemas)
    as [middle|e].
  - destruct Hloop as (-> & Hdb). cbv iota beta.
    destruct (drop_and_commit (get_engine config) (core_schema_name config) w1)
      as (Hal' & Hs' & Hother' & Hstep).
    cbv zeta in Hstep. cbn [engine_url get_engine] in Hstep, Hother'.
    rewrite Hs, Hdb in Hstep. rewrite Hal', Hs', Hal, Hs.
    split; [reflexivity|]. split; [reflexivity|]. split.
    { intros other Hne. rewrite (Hother' other Hne). by apply Hother. }
    cbn [run_statements run_events].
    change ("DROP SCHEMA IF EXISTS " +:+ core_schema_name config +:+ " CASCADE")
      with (drop_schema_statement (core_schema_name config)).
    destruct (server w (connection_string config)
                (drop_schema_statement (core_schema_name config)) middle) as [final|e].
    + destruct Hstep as (Hok & Hlog' & Hfinal). split; [|by split].
      rewrite Hlog', Hlog, <- app_assoc. reflexivity.
    + destruct Hstep as (Hraise & Hlog' & _). split; [|exact Hraise].
      rewrite Hlog', Hlog, <- app_assoc. reflexivity.
  - rewrite Hloop. cbn [fst snd]. rewrite app_nil_r. auto.
Qed.

Lemma _drop_all_config_returned config w w' :
  _drop_all_config config w = (Ok tt, w') ->
  let url := connection_string config in
  let all_schemas := default [] (databases w !! url) in
  sql_log w' = sql_log w ++ drop_events config all_schemas /\
  exists final,
    run_statements (server w url) (drop_statements config all_schemas) all_schemas = Ok final /\
    databases w' !! url = Some final.
Proof.
  intros Hrun. cbv zeta.
  destruct (_drop_all_config_spec config w) as (_ & _ & _ & Hlog & Hspec). cbv zeta in Hspec, Hlog.
  rewrite Hrun in Hspec, Hlog. cbn [fst snd] in Hspec, Hlog.
  destruct (run_statements _ _ _) as [final|e] eqn:Hfinal.
  - destruct Hspec as (_ & Hdb). split; [|by exists final].
    rewrite Hlog. f_equal. exact (run_events_returned _ _ _ _ _ Hfinal).
  - discriminate.
Qed.

(** A whole run: the migration engine and the server stay as they are,
    databases of other configurations are not touched, and a run that
    returns has served every configuration in turn. *)
Lemma _drop_all_spec configs w :
  let run := _drop_all configs w in
  alembic_log (snd run) = alembic_log w /\
  server (snd run) = server w /\
  (forall url, (forall config, In config configs -> connection_string config <> url) ->
               databases (snd run) !! url = databases w !! url) /\
  (fst run = Ok tt -> DropRun configs w (snd run)).
Proof.
  cbv zeta. revert w. induction configs as [|config configs IH]; intros w.
  - simpl. repeat split; auto. intros _. constructor.
  - unfold _drop_all. rewrite for_each_cons. fold (_drop_all configs).
    destruct (_drop_all_config_spec config w) as (Hal & Hs & Hother & _ & _).
    destruct (_drop_all_config config w) as [[[]|e] w1] eqn:Hturn; cbn [fst snd] in *.
    + destruct (IH w1) as (Hal' & Hs' & Hother' & Hrun').
      rewrite Hal', Hs'. split; [exact Hal|]. split; [exact Hs|]. split.
      * intros url Hurl. rewrite Hother' by (intros c Hc; apply Hurl; simpl; auto).
        apply Hother. intros ->. apply (Hurl config); simpl; auto.
      * intros Hok. econstructor; [exact Hturn | by apply Hrun'].
    + split; [exact Hal|]. split; [exact Hs|]. split; [|discriminate].
      intros url Hurl. apply Hother. intros ->. apply (Hurl config); simpl; auto.
Qed.

(** When the core schema does not itself begin with the tenant prefix, it is
    not among the tenant schemas, and its drop at the end is the only
    statement of the turn that names it. *)
Lemma core_not_selected config all_schemas :
  startswith (core_schema_name config) (tenant_schema_prefix config) = false ->
  ~ In (core_schema_name config) (tenant_schemas config all_schemas).
Proof.
  intros Hcore Hin. unfold tenant_schemas in Hin. apply filter_In in Hin as [_ Hin]. congruence.
Qed.

Lemma core_statement_once config all_schemas :
  startswith (core_schema_name config) (tenant_schema_prefix config) = false ->
  drops_of (core_schema_name config) (drop_events config all_schemas)
  = [Execute (connection_string config) (drop_schema_statement (core_schema_name config))].
Proof.
  intros Hcore. rewrite drop_events_by_schema. unfold drops_of.
  rewrite List.filter_app. cbn [List.filter]. rewrite String.eqb_refl.
  match goal with |- ?l ++ _ = _ => assert (Hnil : l = []) end; [|by rewrite Hnil].
  pose proof (core_not_selected config all_schemas Hcore) as Hnot.
  induction (tenant_schemas config all_schemas) as [|schema l IH];
    cbn [flat_map app List.filter]; [reflexivity|].
  destruct (String.eqb_spec (drop_schema_statement schema)
              (drop_schema_statement (core_schema_name config))) as [E|_].
  - apply drop_schema_statement_inj in E. exfalso. apply Hnot. simpl. auto.
  - apply IH. intros Hin. apply Hnot. simpl. auto.
Qed.

(** The question of a command and its answer. *)
Lemma confirmed_drop_all app no_prompt w plugin :
  get_database_migration_plugin app = Ok plugin ->
  (no_prompt = true \/ exists rest, read_confirm (stdin w) = Some (true, rest)) ->
  exists w0,
    drop_all app no_prompt w = _drop_all (config plugin) w0 /\
    engine_effects w0 = engine_effects w /\ server w0 = server w.
Proof.
  intros Hplugin Hconfirmed. destruct no_prompt.
  - unfold drop_all, and_then, lift, ret. simpl. rewrite Hplugin.
    eexists. repeat split; reflexivity.
  - destruct Hconfirmed as [?|[rest Hyes]]; [discriminate|].
    unfold drop_all, and_then, Confirm_ask, and_then, lift. simpl.
    rewrite Hyes, Hplugin. eexists. repeat split; reflexivity.
Qed.

(** C8, as the code has it.  In a confirmed run that returns, with the
    plugin registered, every configuration is served in turn ([DropRun]).
    For a configuration whose core schema name does not begin with the
    tenant prefix, a turn that returns has taken for tenant schemas exactly
    the schemas of the database whose names begin with the prefix, has sent
    [DROP SCHEMA IF EXISTS name CASCADE] with a commit for each of them, in
    that order, and then, once and as the last statement, the same for the
    core schema, which is not among the tenant schemas; the database holds
    what the server made of these statements. *)
Theorem drop_all_tenants_then_core app no_prompt w plugin :
  get_database_migration_plugin app = Ok plugin ->
  (no_prompt = true \/ exists rest, read_confirm (stdin w) = Some (true, rest)) ->
  fst (drop_all app no_prompt w) = Ok tt ->
  (exists w0,
      engine_effects w0 = engine_effects w /\ server w0 = server w /\
      DropRun (config plugin) w0 (snd (drop_all app no_prompt w))) /\
  (forall config w1 w2,
      _drop_all_config config w1 = (Ok tt, w2) ->
      startswith (core_schema_name config) (tenant_schema_prefix config) = false ->
      let url := connection_string config in
      let all_schemas := default [] (databases w1 !! url) in
      let selected := tenant_schemas config all_schemas in
      let drop := fun schema => "DROP SCHEMA IF EXISTS " +:+ schema +:+ " CASCADE" in
      let added := flat_map (fun schema => [Execute url (drop schema); Commit url]) selected
                   ++ [Execute url (drop (core_schema_name config)); Commit url] in
      (forall schema,
          In schema selected <->
          In schema all_schemas /\ exists rest, schema = tenant_schema_prefix config +:+ rest) /\
      sql_log w2 = sql_log w1 ++ added /\
      ~ In (core_schema_name config) selected /\
      drops_of (core_schema_name config) added
      = [Execute url (drop (core_schema_name config))] /\
      exists final,
        run_statements (server w1 url)
          (map drop selected ++ [drop (core_schema_name config)]) all_schemas = Ok final /\
        databases w2 !! url = Some final).
Proof.
  intros Hplugin Hconfirmed Hok. split.
  - destruct (confirmed_drop_all app no_prompt w plugin Hplugin Hconfirmed)
      as (w0 & Hrun & Heff & Hserver).
    exists w0. split; [exact Heff|]. split; [exact Hserver|].
    rewrite Hrun in *. by apply _drop_all_spec.
  - intros config w1 w2 Hturn Hcore url all_schemas selected drop added.
    destruct (_drop_all_config_returned config w1 w2 Hturn) as (Hlog & final & Hfinal & Hdb).
    split; [intros schema; apply tenant_schemas_spec|].
    split; [by rewrite Hlog, drop_events_by_schema|].
    split; [by apply core_not_selected|].
    split; [|by exists final].
    pose proof (core_statement_once config all_schemas Hcore) as Honce.
    by rewrite drop_events_by_schema in Honce.
Qed.

Lemma drop_all_tenants_then_core_witness :
  get_database_migration_plugin Demo.app = Ok Demo.plugin /\
  (true = true \/ exists rest, read_confirm (stdin (Demo.world [])) = Some (true, rest)) /\
  fst (drop_all Demo.app true (Demo.world [])) = Ok tt /\
  exists w0,
    engine_effects w0 = engine_effects (Demo.world []) /\
    server w0 = server (Demo.world []) /\
    DropRun (config Demo.plugin) w0 (snd (drop_all Demo.app true (Demo.world []))).
Proof.
  split; [reflexivity|]. split; [left; reflexivity|]. split; [reflexivity|].
  apply (drop_all_tenants_then_core Demo.app true (Demo.world []) Demo.plugin);
    [reflexivity | left; reflexivity | reflexivity].
Defined.

(** C8 as the specification words it fails in three ways.  With a core
    schema name that begins with the tenant prefix, the core schema is
    dropped among the tenant schemas, before one of them, and again at the
    end.  A statement the server rejects, here for a name with a hyphen
    that goes into it without quotes, ends the run: the core schema is not
    dropped at all.  And a tenant schema with a capital letter in its name
    is selected and gets its statement, yet is still there when the run
    has returned: the server reads the name without quotes in lower
    case. *)
Lemma drop_all_core_twice_or_never :
  let url := connection_string Demo.config in
  let twice := drop_all Demo.overlapping_app true
                 (Demo.world_with ["tenant_core"; "tenant_acme"] []) in
  let never := drop_all Demo.app true
                 (Demo.world_with ["tenant_a"; "tenantacme-corp"; "core"] []) in
  let kept := drop_all Demo.app true (Demo.world_with ["tenantBeta"; "core"] []) in
  (fst twice = Ok tt /\
   sql_log (snd twice)
   = [Execute url "DROP SCHEMA IF EXISTS tenant_core CASCADE"; Commit url;
      Execute url "DROP SCHEMA IF EXISTS tenant_acme CASCADE"; Commit url;
      Execute url "DROP SCHEMA IF EXISTS tenant_core CASCADE"; Commit url]) /\
  (fst never = Raise (ProgrammingError "syntax error") /\
   sql_log (snd never)
   = [Execute url "DROP SCHEMA IF EXISTS tenant_a CASCADE"; Commit url;
      Execute url "DROP SCHEMA IF EXISTS tenantacme-corp CASCADE"] /\
   databases (snd never) !! url = Some ["tenantacme-corp"; "core"]) /\
  (fst kept = Ok tt /\
   tenant_schemas Demo.config ["tenantBeta"; "core"] = ["tenantBeta"] /\
   sql_log (snd kept)
   = [Execute url "DROP SCHEMA IF EXISTS tenantBeta CASCADE"; Commit url;
      Execute url "DROP SCHEMA IF EXISTS core CASCADE"; Commit url] /\
   databases (snd kept) !! url = Some ["tenantBeta"]).
Proof.
  cbv zeta. split; [split; reflexivity|].
  split; [split; [|split]; reflexivity|].
  split; [|split; [|split]]; reflexivity.
Qed.



(** * Further properties *)

(** ** The session provider *)

(** X1: a call of the provider leaves the path parameters and every entry of
    the scope state other than the one under [session_scope_key] as they
    were, and calls the session maker at most once. *)
Theorem provide_session_frame slugify self state scope rt :
  let '(_, scope', rt') := provide_session slugify self state scope rt in
  path_params scope' = path_params scope /\
  (forall key, key <> session_scope_key self ->
               get_aa_scope_state scope' key = get_aa_scope_state scope key) /\
  exists calls, maker_calls rt' = maker_calls rt ++ calls /\ length calls <= 1.
Proof.
  unfold provide_session.
  destruct (get_aa_scope_state scope (session_scope_key self)) as [session|].
  { split; [reflexivity|]. split; [reflexivity|]. exists []. rewrite app_nil_r. simpl. auto. }
  destruct (state !! session_maker_app_state_key self) as [session_maker|].
  2:{ split; [reflexivity|]. split; [reflexivity|]. exists []. rewrite app_nil_r. simpl. auto. }
  assert (Hframe : forall kw,
    let '(session, rt') := call_session_maker session_maker kw rt in
    path_params (set_aa_scope_state scope (session_scope_key self) session) = path_params scope /\
    (forall key, key <> session_scope_key self ->
       get_aa_scope_state (set_aa_scope_state scope (session_scope_key self) session) key
       = get_aa_scope_state scope key) /\
    exists calls, maker_calls rt' = maker_calls rt ++ calls /\ length calls <= 1).
  { intros kw. unfold call_session_maker. split; [reflexivity|]. split.
    - intros key Hne. unfold get_aa_scope_state, set_aa_scope_state. simpl.
      by apply lookup_insert_ne.
    - eexists. split; [reflexivity|]. simpl. lia. }
  destruct (schema_translation_map slugify self scope) as [m|]; [|apply (Hframe None)].
  destruct (map_truthy (Some m)); apply Hframe.
Qed.

(** X2: the provider raises exactly when the scope has no cached session and
    the application state has no session maker under
    [session_maker_app_state_key]; what it raises then is the [KeyError] of
    that key, and scope and runtime are untouched. *)
Theorem provide_session_raises_iff slugify self state scope rt :
  let run := provide_session slugify self state scope rt in
  (is_ok (fst (fst run)) = false <->
   get_aa_scope_state scope (session_scope_key self) = None /\
   state !! session_maker_app_state_key self = None) /\
  (is_ok (fst (fst run)) = false ->
   run = (Raise (KeyError (session_maker_app_state_key self)), scope, rt)).
Proof.
  cbv zeta. unfold provide_session.
  destruct (get_aa_scope_state scope (session_scope_key self)) as [session|]; simpl.
  { split; [split; [discriminate | intros [? _]; discriminate] | discriminate]. }
  destruct (state !! session_maker_app_state_key self) as [session_maker|]; simpl.
  2:{ split; [split; auto | reflexivity]. }
  assert (Hok : forall c : AsyncSession * Runtime,
    is_ok (fst (fst (let '(session, rt') := c in
                     (Ok session, set_aa_scope_state scope (session_scope_key self) session,
                      rt')))) = true) by (intros [? ?]; reflexivity).
  match goal with |- context [let '(_, _) := ?c in _] => specialize (Hok c) end.
  rewrite Hok. split; [split; [discriminate | intros [_ ?]; discriminate] | discriminate].
Qed.

(** X3: the session cached for a connection stays bound to the tenant of the
    first call: once a session was made for a non-empty slug, a later call
    for the same scope state returns that session, with the schema of the
    first slug, whatever the path parameters say by then. *)
Theorem provide_session_keeps_first_tenant
    slugify self state scope rt session_maker organisation_slug :
  path_params scope !! "organisation_slug" = Some organisation_slug ->
  organisation_slug <> "" ->
  get_aa_scope_state scope (session_scope_key self) = None ->
  state !! session_maker_app_state_key self = Some session_maker ->
  exists session scope' rt',
    provide_session slugify self state scope rt = (Ok session, scope', rt') /\
    schema_translate_map (bind session)
    = Some {[ None := schema_name slugify self organisation_slug ]} /\
    forall params state2 rt2,
      let later := {| path_params := params; aa_state := aa_state scope' |} in
      provide_session slugify self state2 later rt2 = (Ok session, later, rt2).
Proof.
  intros Hp Hne Hc Hs.
  rewrite (provide_session_uncached slugify self state scope rt session_maker Hc Hs).
  rewrite (translation_tenant slugify self scope organisation_slug Hp Hne).
  rewrite singleton_map_truthy.
  eexists _, _, _. split; [reflexivity|]. split; [reflexivity|].
  intros params state2 rt2 later. apply provide_session_cached.
  unfold get_aa_scope_state. simpl. apply lookup_insert_eq.
Qed.

Lemma provide_session_keeps_first_tenant_witness :
  path_params Demo.tenant_request !! "organisation_slug" = Some "Acme Corp!" /\
  "Acme Corp!" <> "" /\
  get_aa_scope_state Demo.tenant_request (session_scope_key Demo.config) = None /\
  Demo.state !! session_maker_app_state_key Demo.config = Some Demo.session_maker /\
  exists session scope' rt',
    provide_session Slug.slugify Demo.config Demo.state Demo.tenant_request Demo.fresh
    = (Ok session, scope', rt') /\
    schema_translate_map (bind session)
    = Some {[ None := schema_name Slug.slugify Demo.config "Acme Corp!" ]} /\
    forall params state2 rt2,
      let later := {| path_params := params; aa_state := aa_state scope' |} in
      provide_session Slug.slugify Demo.config state2 later rt2 = (Ok session, later, rt2).
Proof.
  split; [reflexivity|]. split; [discriminate|]. split; [reflexivity|]. split; [reflexivity|].
  apply (provide_session_keeps_first_tenant Slug.slugify Demo.config Demo.state
           Demo.tenant_request Demo.fresh Demo.session_maker "Acme Corp!");
    [reflexivity | discriminate | reflexivity | reflexivity].
Defined.

(** X4: every schema name the provider derives begins with the tenant prefix,
    so drop-all takes it for a tenant schema whenever the database shows
    it. *)
Theorem derived_schema_is_tenant_schema slugify self organisation_slug all_schemas :
  startswith (schema_name slugify self organisation_slug) (tenant_schema_prefix self) = true /\
  (In (schema_name slugify self organisation_slug) (tenant_schemas self all_schemas) <->
   In (schema_name slugify self organisation_slug) all_schemas).
Proof.
  assert (Hs : startswith (schema_name slugify self organisation_slug)
                 (tenant_schema_prefix self) = true).
  { apply startswith_spec. eexists. reflexivity. }
  split; [exact Hs|]. unfold tenant_schemas. rewrite filter_In. tauto.
Qed.

(** ** The revision type *)

Lemma given_valid new_BadOptionUsage revision_type valid w :
  revision_type <> "" -> In revision_type valid ->
  prompt_and_validate_revision new_BadOptionUsage (Some revision_type) valid w
  = (Ok revision_type, w).
Proof.
  intros Hne Hin. apply str_truthy_true in Hne. apply is_valid_In in Hin.
  unfold prompt_and_validate_revision, and_then. rewrite Hne. unfold ret at 1.
  rewrite Hin. reflexivity.
Qed.

(** X5: a revision type that is given, not empty and one of the labels comes
    back as it is: nobody is asked, nothing is written and no error object
    is built, whatever the constructor of [BadOptionUsage] would do. *)
Theorem valid_revision_type_is_kept new_BadOptionUsage revision_type valid w :
  revision_type <> "" -> In revision_type valid ->
  prompt_and_validate_revision new_BadOptionUsage (Some revision_type) valid w
  = (Ok revision_type, w).
Proof. intros Hne Hin. exact (given_valid new_BadOptionUsage revision_type valid w Hne Hin). Qed.

Lemma valid_revision_type_is_kept_witness :
  "tenant" <> "" /\ In "tenant" ["core"; "tenant"] /\
  prompt_and_validate_revision click_BadOptionUsage (Some "tenant") ["core"; "tenant"]
    (Demo.world ["core"]) = (Ok "tenant", Demo.world ["core"]).
Proof.
  split; [discriminate|]. split; [simpl; auto|].
  apply (valid_revision_type_is_kept click_BadOptionUsage "tenant" ["core"; "tenant"]
           (Demo.world ["core"])); [discriminate | simpl; auto].
Defined.

(** X6: when the revision type is [None] or the empty string, the user is
    asked; what comes back is then always a non-empty label of the list, no
    error object is built, the only exception possible is [Abort] at the end
    of the input, and neither the databases nor the migration engine are
    touched. *)
Theorem prompted_revision_type_is_valid new_BadOptionUsage (empty : bool) valid w :
  let run := prompt_and_validate_revision new_BadOptionUsage
               (if empty then Some "" else None) valid w in
  (forall value, fst run = Ok value -> In value valid /\ value <> "") /\
  (forall e, fst run = Raise e -> e = Abort) /\
  discarded (snd run) = discarded w /\
  console (snd run) = console w ++ ["Revision type"] /\
  engine_effects (snd run) = engine_effects w.
Proof.
  cbv zeta. rewrite asked.
  destruct (read_choice valid (stdin w)) as [[value rest]|] eqn:E; simpl.
  - apply read_choice_valid in E.
    split; [intros v [= <-]; exact E|]. split; [discriminate|]. auto.
  - split; [discriminate|]. split; [intros e [= <-]; reflexivity|]. auto.
Qed.

(** ** upgrade and downgrade *)

Section ConfirmedRuns.

Variable new_BadOptionUsage : string -> Result Exception.
Variables (app : Litestar) (plugin : SQLAlchemyInitMultiTenantPlugin).
Variables (first : SQLAlchemyMultiTenantAsyncConfig)
          (others : list SQLAlchemyMultiTenantAsyncConfig).
Hypothesis Hplugin : get_database_migration_plugin app = Ok plugin.
Hypothesis Hconfig : config plugin = first :: others.

Lemma upgrade_given_valid revision_type revision sql tag w :
  revision_type <> "" ->
  In revision_type [core_revision_name first; tenant_revision_name first] ->
  let run := upgrade_database new_BadOptionUsage app (Some revision_type) revision sql tag
               true w in
  fst run = Ok tt /\
  alembic_log (snd run) = alembic_log w ++ [engine_call first revision_type (Upgrade revision sql tag)] /\
  databases (snd run) = databases w /\ sql_log (snd run) = sql_log w /\
  stdin (snd run) = stdin w.
Proof.
  intros Hne Hin. cbv zeta. unfold upgrade_database, and_then, lift.
  simpl. rewrite Hplugin, Hconfig. simpl.
  rewrite (given_valid new_BadOptionUsage revision_type _ _ Hne Hin). simpl.
  unfold engine_call. rewrite lookup_insert_eq. auto.
Qed.

Lemma downgrade_given_valid revision_type revision sql tag w :
  revision_type <> "" ->
  In revision_type [core_revision_name first; tenant_revision_name first] ->
  let run := downgrade_database new_BadOptionUsage app (Some revision_type) revision sql tag
               true w in
  fst run = Ok tt /\
  alembic_log (snd run) = alembic_log w ++ [engine_call first revision_type (Downgrade revision sql tag)] /\
  databases (snd run) = databases w /\ sql_log (snd run) = sql_log w /\
  stdin (snd run) = stdin w.
Proof.
  intros Hne Hin. cbv zeta. unfold downgrade_database, and_then, lift.
  simpl. rewrite Hplugin, Hconfig. simpl.
  rewrite (given_valid new_BadOptionUsage revision_type _ _ Hne Hin). simpl.
  unfold engine_call. rewrite lookup_insert_eq. auto.
Qed.

End ConfirmedRuns.

Lemma missing_plugin app :
  (forall p, ~ In (MultiTenant p) (plugins app)) ->
  get_database_migration_plugin app = Raise (ImproperConfigurationError missing_plugin_msg).
Proof.
  intros Hnone. unfold get_database_migration_plugin, plugins_get.
  assert (H : _plugins_by_type (plugins app) None = None)
    by (apply _plugins_by_type_None; auto).
  by rewrite H.
Qed.

(** X7: a confirmed upgrade or downgrade with a valid revision type makes
    exactly one call of the migration engine, for the first configuration of
    the plugin only and with the script directory
    [{script_location}/{revision_type}]; it executes no statement, changes
    no schema and asks nothing. *)
Theorem confirmed_run_targets_first_config
    new_BadOptionUsage app plugin first others revision_type revision sql tag w :
  get_database_migration_plugin app = Ok plugin ->
  config plugin = first :: others ->
  revision_type <> "" ->
  In revision_type [core_revision_name first; tenant_revision_name first] ->
  let up := upgrade_database new_BadOptionUsage app (Some revision_type) revision sql tag
              true w in
  let down := downgrade_database new_BadOptionUsage app (Some revision_type) revision sql tag
                true w in
  (fst up = Ok tt /\
   alembic_log (snd up)
   = alembic_log w ++ [engine_call first revision_type (Upgrade revision sql tag)] /\
   databases (snd up) = databases w /\ sql_log (snd up) = sql_log w /\
   stdin (snd up) = stdin w) /\
  (fst down = Ok tt /\
   alembic_log (snd down)
   = alembic_log w ++ [engine_call first revision_type (Downgrade revision sql tag)] /\
   databases (snd down) = databases w /\ sql_log (snd down) = sql_log w /\
   stdin (snd down) = stdin w).
Proof.
  intros Hplugin Hconfig Hne Hin. split.
  - exact (upgrade_given_valid new_BadOptionUsage app plugin first others Hplugin Hconfig
             revision_type revision sql tag w Hne Hin).
  - exact (downgrade_given_valid new_BadOptionUsage app plugin first others Hplugin Hconfig
             revision_type revision sql tag w Hne Hin).
Qed.

Lemma confirmed_run_targets_first_config_witness :
  get_database_migration_plugin Demo2.app = Ok Demo2.two_databases /\
  config Demo2.two_databases = Demo.config :: [Demo2.second] /\
  "tenant" <> "" /\
  In "tenant" [core_revision_name Demo.config; tenant_revision_name Demo.config] /\
  fst (upgrade_database click_BadOptionUsage Demo2.app (Some "tenant") "head" false None
         true (Demo.world [])) = Ok tt.
Proof.
  split; [reflexivity|]. split; [reflexivity|]. split; [discriminate|].
  split; [simpl; auto|].
  apply (confirmed_run_targets_first_config click_BadOptionUsage Demo2.app
           Demo2.two_databases Demo.config [Demo2.second] "tenant" "head" false None
           (Demo.world [])); [reflexivity | reflexivity | discriminate | simpl; auto].
Defined.

(** X8: a confirmed upgrade or downgrade with a given, non-empty revision
    type that is not one of the two labels of the first configuration does
    not reach the migration engine: the call of the [BadOptionUsage]
    constructor with one argument raises [TypeError], and the run ends with
    it, with only the headline written. *)
Theorem invalid_revision_type_stops_run
    app plugin first others revision_type revision sql tag w :
  get_database_migration_plugin app = Ok plugin ->
  config plugin = first :: others ->
  revision_type <> "" ->
  ~ In revision_type [core_revision_name first; tenant_revision_name first] ->
  let up := upgrade_database click_BadOptionUsage app (Some revision_type) revision sql
              tag true w in
  let down := downgrade_database click_BadOptionUsage app (Some revision_type) revision
                sql tag true w in
  let error := TypeError "BadOptionUsage.__init__() missing 1 required positional argument: 'message'" in
  (fst up = Raise error /\ engine_effects (snd up) = engine_effects w /\
   stdin (snd up) = stdin w) /\
  (fst down = Raise error /\ engine_effects (snd down) = engine_effects w /\
   stdin (snd down) = stdin w).
Proof.
  intros Hplugin Hconfig Hne Hin. cbv zeta.
  unfold upgrade_database, downgrade_database, and_then, lift. simpl.
  rewrite Hplugin, Hconfig. simpl.
  rewrite !(invalid_given_raises revision_type _ _ [] _ Hne Hin). simpl. auto.
Qed.

Lemma invalid_revision_type_stops_run_witness :
  get_database_migration_plugin Demo.app = Ok Demo.plugin /\
  config Demo.plugin = Demo.config :: [] /\
  "bogus" <> "" /\
  ~ In "bogus" [core_revision_name Demo.config; tenant_revision_name Demo.config] /\
  fst (upgrade_database click_BadOptionUsage Demo.app (Some "bogus") "head" false None
         true (Demo.world []))
  = Raise (TypeError "BadOptionUsage.__init__() missing 1 required positional argument: 'message'") /\
  alembic_log (snd (upgrade_database click_BadOptionUsage Demo.app (Some "bogus") "head" false
                      None true (Demo.world []))) = [].
Proof.
  assert (H : ~ In "bogus" [core_revision_name Demo.config; tenant_revision_name Demo.config])
    by (intros [H|[H|[]]]; discriminate).
  split; [reflexivity|]. split; [reflexivity|]. split; [discriminate|]. split; [exact H|].
  destruct (invalid_revision_type_stops_run Demo.app Demo.plugin Demo.config []
              "bogus" "head" false None (Demo.world []) eq_refl eq_refl
              ltac:(discriminate) H) as [(Hup & Heff & _) _].
  split; [exact Hup|]. exact (f_equal (fun effects => fst (fst effects)) Heff).
Defined.

(** X9: a confirmed upgrade or downgrade on an application without the
    multi-tenant plugin raises [ImproperConfigurationError] before the
    migration engine or a database is reached. *)
Theorem confirmed_run_without_plugin
    new_BadOptionUsage app revision_type revision sql tag w :
  (forall p, ~ In (MultiTenant p) (plugins app)) ->
  let up := upgrade_database new_BadOptionUsage app revision_type revision sql tag true w in
  let down := downgrade_database new_BadOptionUsage app revision_type revision sql tag
                true w in
  (fst up = Raise (ImproperConfigurationError missing_plugin_msg) /\
   engine_effects (snd up) = engine_effects w) /\
  (fst down = Raise (ImproperConfigurationError missing_plugin_msg) /\
   engine_effects (snd down) = engine_effects w).
Proof.
  intros Hnone. apply missing_plugin in Hnone. cbv zeta.
  unfold upgrade_database, downgrade_database, and_then, lift. simpl.
  rewrite Hnone. simpl. auto.
Qed.

Lemma confirmed_run_without_plugin_witness :
  (forall p, ~ In (MultiTenant p) (plugins Demo.bare_app)) /\
  fst (upgrade_database click_BadOptionUsage Demo.bare_app (Some "core") "head" false
         None true (Demo.world []))
  = Raise (ImproperConfigurationError missing_plugin_msg).
Proof.
  assert (H : forall p, ~ In (MultiTenant p) (plugins Demo.bare_app))
    by (intros p [H|[]]; discriminate).
  split; [exact H|].
  apply (confirmed_run_without_plugin click_BadOptionUsage Demo.bare_app (Some "core")
           "head" false None (Demo.world []) H).
Defined.

(** X10: when the plugin was built with an empty sequence of
    configurations, a confirmed upgrade or downgrade raises the [IndexError]
    of [config[0]] and reaches neither the migration engine nor a
    database. *)
Theorem confirmed_run_without_configuration
    new_BadOptionUsage app plugin revision_type revision sql tag w :
  get_database_migration_plugin app = Ok plugin ->
  config plugin = [] ->
  let up := upgrade_database new_BadOptionUsage app revision_type revision sql tag true w in
  let down := downgrade_database new_BadOptionUsage app revision_type revision sql tag
                true w in
  (fst up = Raise (IndexError "list index out of range") /\
   engine_effects (snd up) = engine_effects w) /\
  (fst down = Raise (IndexError "list index out of range") /\
   engine_effects (snd down) = engine_effects w).
Proof.
  intros Hplugin Hconfig. cbv zeta.
  unfold upgrade_database, downgrade_database, and_then, lift. simpl.
  rewrite Hplugin, Hconfig. simpl. auto.
Qed.

Lemma confirmed_run_without_configuration_witness :
  let app := {| plugins := [MultiTenant {| _config := Sequence [] |}] |} in
  get_database_migration_plugin app = Ok {| _config := Sequence [] |} /\
  config {| _config := Sequence [] |} = [] /\
  fst (upgrade_database click_BadOptionUsage app (Some "core") "head" false None true
         (Demo.world []))
  = Raise (IndexError "list index out of range").
Proof.
  cbv zeta. split; [reflexivity|]. split; [reflexivity|].
  apply (confirmed_run_without_configuration click_BadOptionUsage
           {| plugins := [MultiTenant {| _config := Sequence [] |}] |}
           {| _config := Sequence [] |} (Some "core") "head" false None (Demo.world []));
    reflexivity.
Defined.

(** ** drop-all: what it does to the databases *)

Lemma filter_filter {A} (p q : A -> bool) (l : list A) :
  List.filter p (List.filter q l) = List.filter (fun x => q x && p x) l.
Proof.
  induction l as [|x l IH]; simpl; [reflexivity|].
  destruct (q x); simpl; [destruct (p x)|]; by rewrite IH.
Qed.

Lemma filter_all {A} (p : A -> bool) (l : list A) :
  (forall x, In x l -> p x = true) -> List.filter p l = l.
Proof.
  induction l as [|x l IH]; simpl; intros H; [reflexivity|].
  rewrite (H x) by auto. by rewrite IH by auto.
Qed.

Lemma contains_tenant_schemas config all_schemas schema :
  In schema all_schemas ->
  contains (tenant_schemas config all_schemas) schema
  = startswith schema (tenant_schema_prefix config).
Proof.
  intros Hin.
  destruct (contains (tenant_schemas config all_schemas) schema) eqn:E.
  - apply contains_In in E. unfold tenant_schemas in E. apply filter_In in E as [_ E]. by rewrite E.
  - destruct (startswith schema (tenant_schema_prefix config)) eqn:Hs; [|reflexivity].
    assert (H : In schema (tenant_schemas config all_schemas))
      by (unfold tenant_schemas; apply filter_In; auto).
    apply contains_In in H. congruence.
Qed.

(** A server that carries the statements for the schemas of a list out as
    written leaves the schemas that are not in the list. *)
Lemma run_statements_as_written execute names schemas :
  (forall name, In name names -> as_written execute name) ->
  run_statements execute (map drop_schema_statement names) schemas
  = Ok (List.filter (fun schema => negb (contains names schema)) schemas).
Proof.
  revert schemas. induction names as [|name names IH]; intros schemas Hall.
  - simpl. by rewrite filter_all.
  - cbn [map run_statements]. rewrite (Hall name) by (simpl; auto).
    rewrite IH by (intros n Hn; apply Hall; simpl; auto).
    rewrite filter_filter. f_equal. apply filter_ext. intros schema. simpl.
    rewrite (String.eqb_sym name schema). by destruct (String.eqb schema name).
Qed.

Lemma turn_as_written config w :
  let url := connection_string config in
  let all_schemas := default [] (databases w !! url) in
  (forall name, In name (tenant_schemas config all_schemas) \/ name = core_schema_name config ->
                as_written (server w url) name) ->
  run_statements (server w url) (drop_statements config all_schemas) all_schemas
  = Ok (List.filter (survives config) all_schemas).
Proof.
  cbv zeta. intros Hall. unfold drop_statements. rewrite run_statements_app.
  change (map (fun schema => "DROP SCHEMA IF EXISTS " +:+ schema +:+ " CASCADE")
              (tenant_schemas config (default [] (databases w !! connection_string config))))
    with (map drop_schema_statement
              (tenant_schemas config (default [] (databases w !! connection_string config)))).
  rewrite run_statements_as_written by (intros name Hname; apply Hall; auto).
  cbn [run_statements].
  change ("DROP SCHEMA IF EXISTS " +:+ core_schema_name config +:+ " CASCADE")
    with (drop_schema_statement (core_schema_name config)).
  rewrite (Hall (core_schema_name config)) by auto.
  rewrite filter_filter. f_equal. apply filter_ext_in. intros schema Hin.
  unfold survives. by rewrite (contains_tenant_schemas config _ schema Hin).
Qed.

Lemma survivors_have_no_tenant config l :
  tenant_schemas config (List.filter (survives config) l) = [].
Proof.
  unfold tenant_schemas. rewrite filter_filter.
  induction l as [|schema l IH]; simpl; [reflexivity|].
  unfold survives at 1.
  destruct (startswith schema (tenant_schema_prefix config)); simpl; [exact IH|].
  by rewrite andb_false_r.
Qed.

Lemma survivors_have_no_core config l :
  List.filter (fun other => negb (String.eqb other (core_schema_name config)))
    (List.filter (survives config) l)
  = List.filter (survives config) l.
Proof.
  apply filter_all. intros schema Hin. apply filter_In in Hin as [_ Hin].
  unfold survives in Hin. by apply andb_true_iff in Hin as [_ Hin].
Qed.

(** X11: when the server carries the statements of the turn out as written
    (as PostgreSQL does for names that are identifiers in lower case), the
    turn of a configuration returns, and afterwards the database of that
    configuration holds exactly the schemas it held before that neither
    begin with the tenant prefix nor are the core schema, in their old
    order. *)
Theorem drop_all_leaves_survivors config w schema :
  let url := connection_string config in
  let all_schemas := default [] (databases w !! url) in
  let run := _drop_all_config config w in
  (forall name, In name (tenant_schemas config all_schemas) \/ name = core_schema_name config ->
                as_written (server w url) name) ->
  fst run = Ok tt /\
  databases (snd run) !! url = Some (List.filter (survives config) all_schemas) /\
  (In schema (default [] (databases (snd run) !! url)) <->
   In schema all_schemas /\
   startswith schema (tenant_schema_prefix config) = false /\
   schema <> core_schema_name config).
Proof.
  cbv zeta. intros Hall.
  destruct (_drop_all_config_spec config w) as (_ & _ & _ & _ & Hspec). cbv zeta in Hspec.
  rewrite (turn_as_written config w Hall) in Hspec. destruct Hspec as [Hok Hdb].
  split; [exact Hok|]. split; [exact Hdb|]. rewrite Hdb. cbn [default from_option id].
  rewrite filter_In. unfold survives. rewrite andb_true_iff, !negb_true_iff.
  destruct (String.eqb_spec schema (core_schema_name config)) as [->|Hne].
  - split; [intros (_ & _ & ?); discriminate | intros (_ & _ & H); contradiction].
  - tauto.
Qed.

Lemma drop_all_leaves_survivors_witness :
  let url := connection_string Demo.config in
  let run := _drop_all_config Demo.config (Demo.world []) in
  (forall name,
      In name (tenant_schemas Demo.config (default [] (databases (Demo.world []) !! url))) \/
      name = core_schema_name Demo.config ->
      as_written (server (Demo.world []) url) name) /\
  fst run = Ok tt /\
  databases (snd run) !! url = Some ["public"; "audit"].
Proof.
  cbv zeta.
  assert (H : forall name,
             In name (tenant_schemas Demo.config
                        (default [] (databases (Demo.world [])
                                     !! connection_string Demo.config))) \/
             name = core_schema_name Demo.config ->
             as_written (server (Demo.world []) (connection_string Demo.config)) name).
  { intros name [[<-|[<-|[]]]| ->]; intros schemas; reflexivity. }
  split; [exact H|].
  destruct (drop_all_leaves_survivors Demo.config (Demo.world []) "public" H)
    as (Hok & Hdb & _).
  split; [exact Hok | exact Hdb].
Defined.

Lemma drops_of_app schema l1 l2 :
  drops_of schema (l1 ++ l2) = drops_of schema l1 ++ drops_of schema l2.
Proof. apply List.filter_app. Qed.

Lemma tenant_statements_spare_core execute url names core schemas :
  ~ In core names ->
  drops_of core (run_events execute url (map drop_schema_statement names) schemas) = [].
Proof.
  revert schemas. induction names as [|name names IH]; intros schemas Hnot; [reflexivity|].
  assert (Hne : String.eqb (drop_schema_statement name) (drop_schema_statement core) = false).
  { destruct (String.eqb_spec (drop_schema_statement name) (drop_schema_statement core))
      as [E|_]; [|reflexivity].
    apply drop_schema_statement_inj in E. exfalso. apply Hnot. simpl. auto. }
  cbn [map run_events]. unfold drops_of.
  destruct (execute (drop_schema_statement name) schemas) as [schemas'|e];
    cbn [List.filter]; rewrite Hne; [|reflexivity].
  apply IH. intros Hin. apply Hnot. simpl. auto.
Qed.

(** X12: when the core schema name does not begin with the tenant prefix,
    the drop of the core schema is among the statements of a turn exactly
    once if the server accepts the statements for the tenant schemas, and
    not at all if it rejects one of them: the turn then raises the error of
    the server. *)
Theorem core_schema_dropped_once config w :
  startswith (core_schema_name config) (tenant_schema_prefix config) = false ->
  let url := connection_string config in
  let all_schemas := default [] (databases w !! url) in
  let run := _drop_all_config config w in
  exists added,
    sql_log (snd run) = sql_log w ++ added /\
    match run_statements (server w url)
            (map drop_schema_statement (tenant_schemas config all_schemas)) all_schemas with
    | Ok _ =>
        drops_of (core_schema_name config) added
        = [Execute url (drop_schema_statement (core_schema_name config))]
    | Raise e =>
        drops_of (core_schema_name config) added = [] /\ fst run = Raise e
    end.
Proof.
  intros Hcore. cbv zeta.
  destruct (_drop_all_config_spec config w) as (_ & _ & _ & Hlog & Hspec).
  cbv zeta in Hlog, Hspec. eexists. split; [exact Hlog|].
  pose proof (core_not_selected config
                (default [] (databases w !! connection_string config)) Hcore) as Hnot.
  revert Hspec. unfold drop_statements. rewrite run_statements_app, run_events_app.
  change (map (fun schema => "DROP SCHEMA IF EXISTS " +:+ schema +:+ " CASCADE")
              (tenant_schemas config (default [] (databases w !! connection_string config))))
    with (map drop_schema_statement
              (tenant_schemas config (default [] (databases w !! connection_string config)))).
  rewrite drops_of_app, (tenant_statements_spare_core _ _ _ _ _ Hnot).
  destruct (run_statements _ _ _) as [middle|e].
  - intros _. cbn [run_events app].
    change ("DROP SCHEMA IF EXISTS " +:+ core_schema_name config +:+ " CASCADE")
      with (drop_schema_statement (core_schema_name config)).
    unfold drops_of.
    destruct (server w (connection_string config) _ middle);
      cbn [List.filter]; by rewrite String.eqb_refl.
  - intros Hraise. split; [reflexivity | exact Hraise].
Qed.

Lemma core_schema_dropped_once_witness :
  let w := Demo.world_with ["tenant_a"; "tenantacme-corp"; "core"] [] in
  startswith (core_schema_name Demo.config) (tenant_schema_prefix Demo.config) = false /\
  exists added,
    sql_log (snd (_drop_all_config Demo.config w)) = sql_log w ++ added /\
    drops_of (core_schema_name Demo.config) added = [] /\
    fst (_drop_all_config Demo.config w) = Raise (ProgrammingError "syntax error").
Proof.
  cbv zeta. split; [reflexivity|].
  destruct (core_schema_dropped_once Demo.config
              (Demo.world_with ["tenant_a"; "tenantacme-corp"; "core"] []) eq_refl)
    as (added & Hlog & Hcore).
  exists added. split; [exact Hlog | exact Hcore].
Defined.

(** X13: drop-all is idempotent on a database whose server carries the
    statements out as written: when a configuration is served a second
    time, no schema is taken for a tenant schema any more, the only
    statement is the drop of the core schema, and the schemas of the
    database stay as the first turn left them. *)
Theorem drop_all_twice config w :
  let url := connection_string config in
  let all_schemas := default [] (databases w !! url) in
  let w1 := snd (_drop_all_config config w) in
  let second := _drop_all_config config w1 in
  (forall name, In name (tenant_schemas config all_schemas) \/ name = core_schema_name config ->
                as_written (server w url) name) ->
  tenant_schemas config (default [] (databases w1 !! url)) = [] /\
  fst second = Ok tt /\
  sql_log (snd second)
  = sql_log w1 ++ [Execute url (drop_schema_statement (core_schema_name config)); Commit url] /\
  databases (snd second) !! url = databases w1 !! url.
Proof.
  cbv zeta. intros Hall.
  destruct (_drop_all_config_spec config w) as (_ & Hserver & _ & _ & Hspec).
  cbv zeta in Hspec. rewrite (turn_as_written config w Hall) in Hspec.
  destruct Hspec as [_ Hdb].
  destruct (_drop_all_config_spec config (snd (_drop_all_config config w)))
    as (_ & _ & _ & Hlog' & Hspec').
  cbv zeta in Hspec', Hlog'. rewrite Hserver, Hdb in Hspec', Hlog'.
  cbn [default from_option id] in Hspec', Hlog'.
  rewrite Hdb. cbn [default from_option id].
  unfold drop_statements in Hspec', Hlog'. rewrite survivors_have_no_tenant in Hspec', Hlog'.
  cbn [map app run_statements run_events] in Hspec', Hlog'.
  change ("DROP SCHEMA IF EXISTS " +:+ core_schema_name config +:+ " CASCADE")
    with (drop_schema_statement (core_schema_name config)) in Hspec', Hlog'.
  rewrite (Hall (core_schema_name config)) in Hspec', Hlog' by auto.
  rewrite survivors_have_no_core in Hspec'.
  split; [apply survivors_have_no_tenant|].
  destruct Hspec' as [Hok Hdb']. split; [exact Hok|]. split; [exact Hlog' | exact Hdb'].
Qed.

Lemma drop_all_twice_witness :
  let url := connection_string Demo.config in
  let w1 := snd (_drop_all_config Demo.config (Demo.world [])) in
  let second := _drop_all_config Demo.config w1 in
  (forall name,
      In name (tenant_schemas Demo.config (default [] (databases (Demo.world []) !! url))) \/
      name = core_schema_name Demo.config ->
      as_written (server (Demo.world []) url) name) /\
  fst second = Ok tt /\
  sql_log (snd second)
  = sql_log w1 ++ [Execute url "DROP SCHEMA IF EXISTS core CASCADE"; Commit url] /\
  databases (snd second) !! url = databases w1 !! url.
Proof.
  cbv zeta.
  assert (H : forall name,
             In name (tenant_schemas Demo.config
                        (default [] (databases (Demo.world [])
                                     !! connection_string Demo.config))) \/
             name = core_schema_name Demo.config ->
             as_written (server (Demo.world []) (connection_string Demo.config)) name).
  { intros name [[<-|[<-|[]]]| ->]; intros schemas; reflexivity. }
  split; [exact H|].
  destruct (drop_all_twice Demo.config (Demo.world []) H) as (_ & Hok & Hlog & Hdb).
  split; [exact Hok|]. split; [exact Hlog | exact Hdb].
Defined.

(** X14: a run of drop-all changes no database other than the ones of the
    configurations it serves. *)
Theorem drop_all_spares_other_databases configs w url :
  (forall config, In config configs -> connection_string config <> url) ->
  databases (snd (_drop_all configs w)) !! url = databases w !! url.
Proof.
  intros Hother. destruct (_drop_all_spec configs w) as (_ & _ & Hdb & _).
  by apply Hdb.
Qed.

Lemma drop_all_spares_other_databases_witness :
  (forall config, In config [Demo2.second] ->
                  connection_string config <> connection_string Demo.config) /\
  databases (snd (_drop_all [Demo2.second] (Demo.world []))) !! connection_string Demo.config
  = databases (Demo.world []) !! connection_string Demo.config.
Proof.
  assert (H : forall config, In config [Demo2.second] ->
                             connection_string config <> connection_string Demo.config)
    by (intros config [<-|[]]; discriminate).
  split; [exact H|].
  apply (drop_all_spares_other_databases [Demo2.second] (Demo.world [])
           (connection_string Demo.config) H).
Defined.

(** X15: no run of drop-all, confirmed or not, with or without the plugin,
    calls the migration engine. *)
Theorem drop_all_never_migrates app no_prompt w :
  alembic_log (snd (drop_all app no_prompt w)) = alembic_log w.
Proof.
  unfold drop_all, and_then at 1. simpl.
  set (w1 := {| stdin := stdin w;
                console := console w ++ ["[yellow]Dropping all tables from the database[/]"];
                discarded := discarded w; alembic_log := alembic_log w;
                databases := databases w; sql_log := sql_log w; server := server w |}).
  assert (Hbody : forall answer w0, alembic_log w0 = alembic_log w ->
    alembic_log (snd (and_then (lift (get_database_migration_plugin app))
                        (fun plugin => if (answer : bool) then _drop_all (config plugin)
                                       else ret tt) w0)) = alembic_log w).
  { intros answer w0 H0. unfold and_then, lift.
    destruct (get_database_migration_plugin app) as [plugin|e]; [|exact H0].
    destruct answer; [|exact H0].
    destruct (_drop_all_spec (config plugin) w0) as (Hal & _). by rewrite Hal. }
  destruct no_prompt.
  - unfold and_then at 1. unfold ret at 1. exact (Hbody true w1 eq_refl).
  - unfold and_then at 1. unfold Confirm_ask, and_then at 1. simpl.
    destruct (read_confirm (stdin w)) as [[answer rest]|]; [|reflexivity].
    apply (Hbody answer). reflexivity.
Qed.

(** X16: on an application without the multi-tenant plugin drop-all raises
    [ImproperConfigurationError] whatever the answer to its question is,
    yes or no, and leaves databases and migration engine alone: the plugin
    is looked up after the question and before the answer is used. *)
Theorem drop_all_without_plugin app no_prompt w :
  (forall p, ~ In (MultiTenant p) (plugins app)) ->
  (no_prompt = true \/ exists answer rest, read_confirm (stdin w) = Some (answer, rest)) ->
  fst (drop_all app no_prompt w) = Raise (ImproperConfigurationError missing_plugin_msg) /\
  engine_effects (snd (drop_all app no_prompt w)) = engine_effects w.
Proof.
  intros Hnone Hanswer. apply missing_plugin in Hnone.
  destruct no_prompt.
  - unfold drop_all, and_then, lift, ret. simpl. rewrite Hnone. auto.
  - destruct Hanswer as [?|(answer & rest & Hread)]; [discriminate|].
    unfold drop_all, and_then, Confirm_ask, and_then, lift. simpl.
    rewrite Hread, Hnone. auto.
Qed.

Lemma drop_all_without_plugin_witness :
  (forall p, ~ In (MultiTenant p) (plugins Demo.bare_app)) /\
  (false = true \/ exists answer rest,
      read_confirm (stdin (Demo.world ["n"])) = Some (answer, rest)) /\
  fst (drop_all Demo.bare_app false (Demo.world ["n"]))
  = Raise (ImproperConfigurationError missing_plugin_msg).
Proof.
  assert (H : forall p, ~ In (MultiTenant p) (plugins Demo.bare_app))
    by (intros p [H|[]]; discriminate).
  assert (H' : false = true \/ exists answer rest,
               read_confirm (stdin (Demo.world ["n"])) = Some (answer, rest))
    by (right; exists false, []; reflexivity).
  split; [exact H|]. split; [exact H'|].
  apply (drop_all_without_plugin Demo.bare_app false (Demo.world ["n"]) H H').
Defined.

(** ** The other revision commands *)

Lemma init_alembic_loop_step config configs directory multidb package sh :
  let used := match directory with
              | Some given => given
              | None => script_location (alembic_config config)
              end in
  init_alembic_loop (config :: configs) directory multidb package true sh
  = init_alembic_loop configs (Some used) multidb package true
      {| world := world sh;
         migration_log := migration_log sh ++ init_events used multidb package config;
         dump_log := dump_log sh |}.
Proof.
  cbv zeta. cbn [init_alembic_loop]. unfold script_then at 1. unfold script_then at 1.
  unfold script_ret at 1. cbn [for_each_script]. unfold script_then, migration_run, script_ret.
  cbn [world migration_log dump_log]. unfold init_events, new_AlembicCommands.
  cbn [map sqlalchemy_config main_options]. rewrite lookup_singleton_eq.
  rewrite <- app_assoc. reflexivity.
Qed.

Lemma init_alembic_loop_unprompted configs directory multidb package sh :
  let run := init_alembic_loop configs directory multidb package true sh in
  fst run = Ok tt /\
  migration_log (snd run)
  = migration_log sh ++
    flat_map (init_events (init_directory directory configs) multidb package) configs /\
  world (snd run) = world sh /\ dump_log (snd run) = dump_log sh.
Proof.
  cbv zeta. revert directory sh.
  induction configs as [|config configs IH]; intros directory sh.
  - simpl. rewrite app_nil_r. auto.
  - rewrite init_alembic_loop_step.
    match goal with |- context [init_alembic_loop configs (Some ?d) _ _ _ ?sh1] =>
      destruct (IH (Some d) sh1) as (Hok & Hlog & Hw & Hd) end.
    rewrite Hok, Hlog, Hw, Hd. cbn [migration_log world dump_log].
    split; [reflexivity|]. split; [|auto].
    rewrite <- app_assoc. reflexivity.
Qed.

(** X17: with [--no-prompt] and the plugin registered, [init-alembic] makes
    two [init] calls for each configuration, one for the core and one for
    the tenant revision name, and every one of them, for every
    configuration, lies under one and the same directory: the directory
    given or, when none is given, the script location of the first
    configuration. *)
Theorem init_alembic_directories app plugin directory multidb package sh :
  get_database_migration_plugin app = Ok plugin ->
  let run := init_alembic app directory multidb package true sh in
  fst run = Ok tt /\
  migration_log (snd run)
  = migration_log sh ++
    flat_map (init_events (init_directory directory (config plugin)) multidb package)
             (config plugin) /\
  engine_effects (world (snd run)) = engine_effects (world sh) /\
  stdin (world (snd run)) = stdin (world sh).
Proof.
  intros Hplugin. cbv zeta. unfold init_alembic, script_then, inside, lift. simpl.
  rewrite Hplugin.
  match goal with |- context [init_alembic_loop _ _ _ _ _ ?sh1] =>
    destruct (init_alembic_loop_unprompted (config plugin) directory multidb package sh1)
      as (Hok & Hlog & Hw & _) end.
  rewrite Hok, Hlog, Hw. simpl. auto.
Qed.

Lemma init_alembic_directories_witness :
  get_database_migration_plugin Demo2.app = Ok Demo2.two_databases /\
  migration_log (snd (init_alembic Demo2.app None false true true (Demo2.shell [])))
  = migration_log (Demo2.shell []) ++
    flat_map (init_events (init_directory None (config Demo2.two_databases)) false true)
             (config Demo2.two_databases).
Proof.
  split; [reflexivity|].
  apply (init_alembic_directories Demo2.app Demo2.two_databases None false true
           (Demo2.shell [])). reflexivity.
Defined.

Section RevisionRuns.

Variable new_BadOptionUsage : string -> Result Exception.
Variables (app : Litestar) (plugin : SQLAlchemyInitMultiTenantPlugin).
Variables (first : SQLAlchemyMultiTenantAsyncConfig)
          (others : list SQLAlchemyMultiTenantAsyncConfig).
Variable revision_type : string.
Hypothesis Hplugin : get_database_migration_plugin app = Ok plugin.
Hypothesis Hconfig : config plugin = first :: others.
Hypothesis Hgiven : revision_type <> "".
Hypothesis Hvalid : In revision_type [core_revision_name first; tenant_revision_name first].

(** X18: [show-current-revision] with a valid revision type makes one
    [current] call, for the first configuration and with the script
    directory [{script_location}/{revision_type}]; it asks nothing and
    touches no database. *)
Theorem show_database_revision_current verbose sh :
  let run := show_database_revision new_BadOptionUsage app (Some revision_type) verbose sh in
  fst run = Ok tt /\
  migration_log (snd run)
  = migration_log sh ++ [migration_event first revision_type (Current verbose)] /\
  engine_effects (world (snd run)) = engine_effects (world sh) /\
  stdin (world (snd run)) = stdin (world sh).
Proof.
  cbv zeta. unfold show_database_revision, script_then, inside, lift. simpl.
  rewrite Hplugin, Hconfig. simpl.
  rewrite (given_valid new_BadOptionUsage revision_type _ _ Hgiven Hvalid). simpl.
  unfold migration_event. rewrite lookup_insert_eq. auto.
Qed.

Lemma create_unprompted message autogenerate sql head splice branch_label version_path
    rev_id sh :
  let run := create_revision new_BadOptionUsage app (Some revision_type) message
               autogenerate sql head splice branch_label version_path rev_id true sh in
  fst run = Ok tt /\
  migration_log (snd run)
  = migration_log sh ++
    [migration_event first revision_type
       (Revision (default "autogenerated" message) autogenerate sql head splice
          branch_label version_path rev_id)] /\
  stdin (world (snd run)) = stdin (world sh).
Proof.
  cbv zeta. unfold create_revision, script_then, inside, lift, revision_message.
  destruct message as [given|]; simpl; rewrite Hplugin, Hconfig; simpl;
    rewrite (given_valid new_BadOptionUsage revision_type _ _ Hgiven Hvalid); simpl;
    unfold migration_event; rewrite lookup_insert_eq; auto.
Qed.

Lemma merge_unprompted revisions message branch_label rev_id sh :
  let run := merge_revisions new_BadOptionUsage app (Some revision_type) revisions message
               branch_label rev_id true sh in
  fst run = Ok tt /\
  migration_log (snd run)
  = migration_log sh ++
    [migration_event first revision_type
       (Merge (default "autogenerated" message) revisions branch_label rev_id)] /\
  stdin (world (snd run)) = stdin (world sh).
Proof.
  cbv zeta. unfold merge_revisions, script_then, inside, lift, revision_message.
  destruct message as [given|]; simpl; rewrite Hplugin, Hconfig; simpl;
    rewrite (given_valid new_BadOptionUsage revision_type _ _ Hgiven Hvalid); simpl;
    unfold migration_event; rewrite lookup_insert_eq; auto.
Qed.

Lemma create_prompted line rest autogenerate sql head splice branch_label version_path
    rev_id sh :
  stdin (world sh) = line :: rest ->
  let run := create_revision new_BadOptionUsage app (Some revision_type) None
               autogenerate sql head splice branch_label version_path rev_id false sh in
  fst run = Ok tt /\
  migration_log (snd run)
  = migration_log sh ++
    [migration_event first revision_type
       (Revision (Str.strip line) autogenerate sql head splice branch_label version_path rev_id)] /\
  stdin (world (snd run)) = rest.
Proof.
  intros Hin. cbv zeta.
  unfold create_revision, script_then, inside, lift, revision_message, Prompt_ask, and_then.
  simpl. rewrite Hin. simpl. rewrite Hplugin, Hconfig. simpl.
  rewrite (given_valid new_BadOptionUsage revision_type _ _ Hgiven Hvalid). simpl.
  unfold migration_event. rewrite lookup_insert_eq. auto.
Qed.

Lemma merge_prompted line rest revisions branch_label rev_id sh :
  stdin (world sh) = line :: rest ->
  let run := merge_revisions new_BadOptionUsage app (Some revision_type) revisions None
               branch_label rev_id false sh in
  fst run = Ok tt /\
  migration_log (snd run)
  = migration_log sh ++
    [migration_event first revision_type (Merge (Str.strip line) revisions branch_label rev_id)] /\
  stdin (world (snd run)) = rest.
Proof.
  intros Hin. cbv zeta.
  unfold merge_revisions, script_then, inside, lift, revision_message, Prompt_ask, and_then.
  simpl. rewrite Hin. simpl. rewrite Hplugin, Hconfig. simpl.
  rewrite (given_valid new_BadOptionUsage revision_type _ _ Hgiven Hvalid). simpl.
  unfold migration_event. rewrite lookup_insert_eq. auto.
Qed.


(** X20: [stamp-migration] with [--no-prompt] and a valid revision type
    makes exactly one [stamp] call, for the first configuration and with the
    script directory [{script_location}/{revision_type}], handing on
    [sql], [revision], [tag] and [purge] as given. *)
Theorem stamp_revision_confirmed revision sql tag purge sh :
  let run := stamp_revision new_BadOptionUsage app (Some revision_type) revision sql tag
               purge true sh in
  fst run = Ok tt /\
  migration_log (snd run)
  = migration_log sh ++ [migration_event first revision_type (Stamp sql revision tag purge)] /\
  engine_effects (world (snd run)) = engine_effects (world sh) /\
  stdin (world (snd run)) = stdin (world sh).
Proof.
  cbv zeta. unfold stamp_revision, script_then, inside, lift. simpl.
  rewrite Hplugin, Hconfig. simpl.
  rewrite (given_valid new_BadOptionUsage revision_type _ _ Hgiven Hvalid). simpl.
  rewrite ?(given_valid new_BadOptionUsage revision_type _ _ Hgiven Hvalid). simpl.
  unfold migration_event. rewrite lookup_insert_eq. auto.
Qed.

End RevisionRuns.

Lemma show_database_revision_current_witness :
  get_database_migration_plugin Demo.app = Ok Demo.plugin /\
  config Demo.plugin = Demo.config :: [] /\
  "core" <> "" /\
  In "core" [core_revision_name Demo.config; tenant_revision_name Demo.config] /\
  fst (show_database_revision click_BadOptionUsage Demo.app (Some "core") true
         (Demo2.shell [])) = Ok tt.
Proof.
  split; [reflexivity|]. split; [reflexivity|]. split; [discriminate|].
  split; [simpl; auto|].
  apply (show_database_revision_current click_BadOptionUsage Demo.app Demo.plugin
           Demo.config [] "core"); [reflexivity | reflexivity | discriminate | simpl; auto].
Defined.


Lemma stamp_revision_confirmed_witness :
  get_database_migration_plugin Demo.app = Ok Demo.plugin /\
  config Demo.plugin = Demo.config :: [] /\
  "tenant" <> "" /\
  In "tenant" [core_revision_name Demo.config; tenant_revision_name Demo.config] /\
  fst (stamp_revision click_BadOptionUsage Demo.app (Some "tenant") "head" false None
         true true (Demo2.shell [])) = Ok tt.
Proof.
  split; [reflexivity|]. split; [reflexivity|]. split; [discriminate|].
  split; [simpl; auto|].
  apply (stamp_revision_confirmed click_BadOptionUsage Demo.app Demo.plugin
           Demo.config [] "tenant"); [reflexivity | reflexivity | discriminate | simpl; auto].
Defined.

(** X21: [stamp-migration] run without a revision type asks for it once:
    the answer of the first validation is what the second validation, after
    the confirmation, receives, so the user is not asked again and the stamp
    goes to the script directory of the answer. *)
Theorem stamp_revision_asks_once
    new_BadOptionUsage app plugin first others revision sql tag purge answer rest sh :
  get_database_migration_plugin app = Ok plugin ->
  config plugin = first :: others ->
  read_choice [core_revision_name first; tenant_revision_name first] (stdin (world sh))
  = Some (answer, rest) ->
  let run := stamp_revision new_BadOptionUsage app None revision sql tag purge true sh in
  fst run = Ok tt /\
  migration_log (snd run)
  = migration_log sh ++ [migration_event first answer (Stamp sql revision tag purge)] /\
  stdin (world (snd run)) = rest /\
  console (world (snd run))
  = console (world sh) ++ ["[yellow]Stamping database revision as current[/]";
                           "Revision type"].
Proof.
  intros Hplugin Hconfig Hread. cbv zeta.
  pose proof (read_choice_valid _ _ _ _ Hread) as [Hin Hne].
  unfold stamp_revision, script_then, inside, lift. simpl.
  rewrite Hplugin, Hconfig. simpl.
  rewrite (asked new_BadOptionUsage false). simpl. rewrite Hread. simpl.
  rewrite (given_valid new_BadOptionUsage answer _ _ Hne Hin). simpl.
  unfold migration_event. rewrite lookup_insert_eq, <- app_assoc. auto.
Qed.

Lemma stamp_revision_asks_once_witness :
  get_database_migration_plugin Demo.app = Ok Demo.plugin /\
  config Demo.plugin = Demo.config :: [] /\
  read_choice [core_revision_name Demo.config; tenant_revision_name Demo.config]
    (stdin (world (Demo2.shell ["Tenant"; "tenant"; "core"]))) = Some ("tenant", ["core"]) /\
  stdin (world (snd (stamp_revision click_BadOptionUsage Demo.app None "head" false
                       None false true (Demo2.shell ["Tenant"; "tenant"; "core"]))))
  = ["core"].
Proof.
  split; [reflexivity|]. split; [reflexivity|]. split; [reflexivity|].
  apply (stamp_revision_asks_once click_BadOptionUsage Demo.app Demo.plugin Demo.config
           [] "head" false None false "tenant" ["core"]
           (Demo2.shell ["Tenant"; "tenant"; "core"])); reflexivity.
Defined.

(** X22: on an application without the multi-tenant plugin
    [stamp-migration] raises [ImproperConfigurationError] before it asks
    anything: with or without [--no-prompt], the input is not read and
    nothing but the headline is written. *)
Theorem stamp_revision_without_plugin
    new_BadOptionUsage app revision_type revision sql tag purge no_prompt sh :
  (forall p, ~ In (MultiTenant p) (plugins app)) ->
  let run := stamp_revision new_BadOptionUsage app revision_type revision sql tag purge
               no_prompt sh in
  fst run = Raise (ImproperConfigurationError missing_plugin_msg) /\
  stdin (world (snd run)) = stdin (world sh) /\
  console (world (snd run))
  = console (world sh) ++ ["[yellow]Stamping database revision as current[/]"] /\
  migration_log (snd run) = migration_log sh.
Proof.
  intros Hnone. apply missing_plugin in Hnone. cbv zeta.
  unfold stamp_revision, script_then, inside, lift. simpl. rewrite Hnone. simpl. auto.
Qed.

Lemma stamp_revision_without_plugin_witness :
  (forall p, ~ In (MultiTenant p) (plugins Demo.bare_app)) /\
  fst (stamp_revision click_BadOptionUsage Demo.bare_app None "head" false None false
         false (Demo2.shell ["core"; "y"]))
  = Raise (ImproperConfigurationError missing_plugin_msg).
Proof.
  assert (H : forall p, ~ In (MultiTenant p) (plugins Demo.bare_app))
    by (intros p [H|[]]; discriminate).
  split; [exact H|].
  apply (stamp_revision_without_plugin click_BadOptionUsage Demo.bare_app None "head"
           false None false false (Demo2.shell ["core"; "y"]) H).
Defined.

(** X23: with [--no-prompt], [make-migrations] and [merge-migrations] take
    the message given or, when none is given, the text [autogenerated]; they
    ask nothing and make one call, [revision] or [merge], for the first
    configuration with the script directory of the revision type and with
    their other options handed on as given. *)
Theorem revision_message_defaults
    new_BadOptionUsage app plugin first others revision_type message
    autogenerate sql head splice branch_label version_path rev_id revisions sh :
  get_database_migration_plugin app = Ok plugin ->
  config plugin = first :: others ->
  revision_type <> "" ->
  In revision_type [core_revision_name first; tenant_revision_name first] ->
  let made := create_revision new_BadOptionUsage app (Some revision_type) message
                autogenerate sql head splice branch_label version_path rev_id true sh in
  let merged := merge_revisions new_BadOptionUsage app (Some revision_type) revisions
                  message branch_label rev_id true sh in
  (fst made = Ok tt /\
   migration_log (snd made)
   = migration_log sh ++
     [migration_event first revision_type
        (Revision (default "autogenerated" message) autogenerate sql head splice
           branch_label version_path rev_id)] /\
   stdin (world (snd made)) = stdin (world sh)) /\
  (fst merged = Ok tt /\
   migration_log (snd merged)
   = migration_log sh ++
     [migration_event first revision_type
        (Merge (default "autogenerated" message) revisions branch_label rev_id)] /\
   stdin (world (snd merged)) = stdin (world sh)).
Proof.
  intros Hplugin Hconfig Hne Hin. split.
  - exact (create_unprompted new_BadOptionUsage app plugin first others revision_type
             Hplugin Hconfig Hne Hin message autogenerate sql head splice branch_label
             version_path rev_id sh).
  - exact (merge_unprompted new_BadOptionUsage app plugin first others revision_type
             Hplugin Hconfig Hne Hin revisions message branch_label rev_id sh).
Qed.

Lemma revision_message_defaults_witness :
  get_database_migration_plugin Demo.app = Ok Demo.plugin /\
  config Demo.plugin = Demo.config :: [] /\
  "tenant" <> "" /\
  In "tenant" [core_revision_name Demo.config; tenant_revision_name Demo.config] /\
  fst (create_revision click_BadOptionUsage Demo.app (Some "tenant") None true false
         "head" false None None None true (Demo2.shell [])) = Ok tt.
Proof.
  split; [reflexivity|]. split; [reflexivity|]. split; [discriminate|].
  split; [simpl; auto|].
  apply (revision_message_defaults click_BadOptionUsage Demo.app Demo.plugin Demo.config
           [] "tenant" None true false "head" false None None None "heads" (Demo2.shell []));
    [reflexivity | reflexivity | discriminate | simpl; auto].
Defined.

(** X24: without [--no-prompt] and without a message, [make-migrations] and
    [merge-migrations] take the next line the user types, less the white
    space at its two ends, as the message, whatever it is, the empty line
    included, and read nothing more. *)
Theorem revision_message_typed
    new_BadOptionUsage app plugin first others revision_type line rest
    autogenerate sql head splice branch_label version_path rev_id revisions sh :
  get_database_migration_plugin app = Ok plugin ->
  config plugin = first :: others ->
  revision_type <> "" ->
  In revision_type [core_revision_name first; tenant_revision_name first] ->
  stdin (world sh) = line :: rest ->
  let made := create_revision new_BadOptionUsage app (Some revision_type) None
                autogenerate sql head splice branch_label version_path rev_id false sh in
  let merged := merge_revisions new_BadOptionUsage app (Some revision_type) revisions
                  None branch_label rev_id false sh in
  (fst made = Ok tt /\
   migration_log (snd made)
   = migration_log sh ++
     [migration_event first revision_type
        (Revision (Str.strip line) autogenerate sql head splice branch_label version_path rev_id)] /\
   stdin (world (snd made)) = rest) /\
  (fst merged = Ok tt /\
   migration_log (snd merged)
   = migration_log sh ++
     [migration_event first revision_type (Merge (Str.strip line) revisions branch_label rev_id)] /\
   stdin (world (snd merged)) = rest).
Proof.
  intros Hplugin Hconfig Hne Hin Hline. split.
  - exact (create_prompted new_BadOptionUsage app plugin first others revision_type
             Hplugin Hconfig Hne Hin line rest autogenerate sql head splice branch_label
             version_path rev_id sh Hline).
  - exact (merge_prompted new_BadOptionUsage app plugin first others revision_type
             Hplugin Hconfig Hne Hin line rest revisions branch_label rev_id sh Hline).
Qed.

Lemma revision_message_typed_witness :
  get_database_migration_plugin Demo.app = Ok Demo.plugin /\
  config Demo.plugin = Demo.config :: [] /\
  "core" <> "" /\
  In "core" [core_revision_name Demo.config; tenant_revision_name Demo.config] /\
  stdin (world (Demo2.shell ["  add users "; "later"])) = "  add users " :: ["later"] /\
  Str.strip "  add users " = "add users" /\
  fst (create_revision click_BadOptionUsage Demo.app (Some "core") None true false
         "head" false None None None false (Demo2.shell ["  add users "; "later"])) = Ok tt.
Proof.
  split; [reflexivity|]. split; [reflexivity|]. split; [discriminate|].
  split; [simpl; auto|]. split; [reflexivity|]. split; [reflexivity|].
  apply (revision_message_typed click_BadOptionUsage Demo.app Demo.plugin Demo.config
           [] "core" "  add users " ["later"] true false "head" false None None None "heads"
           (Demo2.shell ["  add users "; "later"]));
    [reflexivity | reflexivity | discriminate | simpl; auto | reflexivity].
Defined.

(** X25: the callback of [make-migrations] leaves the directives alone
    unless autogeneration is on and the upgrade of the first directive is
    empty; then it writes its three lines and empties the whole list.  With
    autogeneration on and no directive at all it raises [IndexError]. *)
Theorem process_revision_directives_spec autogenerate directives w :
  let run := process_revision_directives autogenerate directives w in
  match autogenerate, directives with
  | false, _ => run = (Ok directives, w)
  | true, [] => run = (Raise (IndexError "list index out of range"), w)
  | true, first :: _ =>
      if is_empty first
      then fst run = Ok [] /\ length (console (snd run)) = length (console w) + 3 /\
           engine_effects (snd run) = engine_effects w
      else run = (Ok directives, w)
  end.
Proof.
  cbv zeta. unfold process_revision_directives.
  destruct autogenerate; [|reflexivity].
  destruct directives as [|first rest]; [reflexivity|].
  unfold and_then, lift. simpl.
  destruct (is_empty first); [|reflexivity].
  simpl. rewrite !length_app. simpl. split; [reflexivity|]. split; [lia|reflexivity].
Qed.

(** ** dump-data *)

Lemma quiet_refl sh : quiet sh sh.
Proof. by repeat split. Qed.

Lemma quiet_trans sh1 sh2 sh3 : quiet sh1 sh2 -> quiet sh2 sh3 -> quiet sh1 sh3.
Proof. intros (H1 & H2 & H3) (K1 & K2 & K3). repeat split; congruence. Qed.

Lemma in_list_to_set (l : list string) (x : string) :
  bool_decide (x ∈ (list_to_set l : gset string)) = contains l x.
Proof.
  destruct (contains l x) eqn:E.
  - apply bool_decide_eq_true. apply elem_of_list_to_set, list_elem_of_In. by apply contains_In.
  - apply bool_decide_eq_false. intros H. apply elem_of_list_to_set, list_elem_of_In in H.
    apply contains_In in H. congruence.
Qed.


Lemma script_then_ok {A B} (m : Script A) (k : A -> Script B) sh a sh1 :
  m sh = (Ok a, sh1) -> script_then m k sh = k a sh1.
Proof. intros H. unfold script_then. by rewrite H. Qed.

Lemma run_ok {A} (r : Result A * Shell) (a : A) : fst r = Ok a -> r = (Ok a, snd r).
Proof. destruct r as [? ?]. simpl. by intros ->. Qed.

Lemma for_each_script_cons {A} (x : A) (l : list A) (body : A -> Script unit) sh sh1 :
  body x sh = (Ok tt, sh1) ->
  for_each_script (x :: l) body sh = for_each_script l body sh1.
Proof. intros H. cbn [for_each_script]. unfold script_then. by rewrite H. Qed.


Section DumpRuns.

Variable metadata_tables : SQLAlchemyMultiTenantAsyncConfig -> list string.
Variable mappers : list Mapper.
Variable table_names : list string.
Variable directory : string.


Lemma models_all config :
  models_of mappers (list_to_set (metadata_tables config))
  = dump_models (expected_dump metadata_tables mappers directory (fun _ => true) config).
Proof.
  unfold models_of, expected_dump. simpl. f_equal. apply filter_ext. intros mapper.
  rewrite in_list_to_set. by rewrite andb_true_r.
Qed.


Lemma dump_config_all config sh :
  let run := _dump_tables_config metadata_tables mappers true table_names directory config
               sh in
  fst run = Ok tt /\ quiet sh (snd run) /\
  dump_log (snd run)
  = dump_log sh ++ [expected_dump metadata_tables mappers directory (fun _ => true) config].
Proof.
  cbv zeta. unfold _dump_tables_config, select_tables. cbn [negb].
  unfold script_then, script_ret, dump_tables, inside. simpl.
  rewrite models_all. split; [reflexivity|]. split; [by repeat split | reflexivity].
Qed.


Lemma dump_loop_all configs sh :
  let run := _dump_tables metadata_tables mappers true table_names directory configs sh in
  fst run = Ok tt /\ quiet sh (snd run) /\
  dump_log (snd run)
  = dump_log sh ++
    map (expected_dump metadata_tables mappers directory (fun _ => true)) configs.
Proof.
  cbv zeta. revert sh. induction configs as [|config configs IH]; intros sh.
  - simpl. rewrite !app_nil_r. split; [reflexivity|]. split; [apply quiet_refl|]. auto.
  - destruct (dump_config_all config sh) as (Hok & Hq & Hd).
    apply run_ok in Hok. unfold _dump_tables.
    rewrite (for_each_script_cons _ _ _ _ _ Hok).
    fold (_dump_tables metadata_tables mappers true table_names directory configs).
    destruct (IH (snd (_dump_tables_config metadata_tables mappers true table_names
                         directory config sh))) as (Hok' & Hq' & Hd').
    split; [exact Hok'|]. split; [exact (quiet_trans _ _ _ Hq Hq')|].
    rewrite Hd', Hd, <- app_assoc. reflexivity.
Qed.

(** X26: when [*] is among the table names and the user answers no,
    [dump-data] dumps nothing and returns; the plugin is not even looked up,
    so this holds for every application. *)
Theorem dump_declined app rest sh :
  contains table_names "*" = true ->
  read_confirm (stdin (world sh)) = Some (false, rest) ->
  let run := dump_table_data metadata_tables mappers app table_names directory sh in
  fst run = Ok tt /\ dump_log (snd run) = dump_log sh /\
  migration_log (snd run) = migration_log sh /\
  engine_effects (world (snd run)) = engine_effects (world sh) /\
  List.last (console (world (snd run))) "" = "[red bold]No data was dumped.".
Proof.
  intros Hstar Hno. cbv zeta. unfold dump_table_data. rewrite Hstar.
  unfold script_then, inside, Confirm_ask, and_then. simpl. rewrite Hno. simpl.
  rewrite List.last_last. auto.
Qed.


(** X28: with [*] among the table names and the answer yes, [dump-data]
    calls [dump_tables] once for each configuration with the classes of all
    mappers whose table is in the metadata of that configuration; the other
    names given beside [*] make no difference. *)
Theorem dump_all_tables app plugin rest sh :
  contains table_names "*" = true ->
  read_confirm (stdin (world sh)) = Some (true, rest) ->
  get_database_migration_plugin app = Ok plugin ->
  let run := dump_table_data metadata_tables mappers app table_names directory sh in
  fst run = Ok tt /\
  dump_log (snd run)
  = dump_log sh ++
    map (expected_dump metadata_tables mappers directory (fun _ => true)) (config plugin) /\
  stdin (world (snd run)) = rest /\
  engine_effects (world (snd run)) = engine_effects (world sh).
Proof.
  intros Hstar Hyes Hplugin. cbv zeta. unfold dump_table_data. rewrite Hstar.
  erewrite script_then_ok; cycle 1.
  { erewrite script_then_ok; [reflexivity|].
    unfold inside, Confirm_ask, and_then, console_rule. cbn [fst snd stdin].
    rewrite Hyes. reflexivity. }
  cbn [negb].
  erewrite script_then_ok by (unfold inside, lift; rewrite Hplugin; reflexivity).
  match goal with |- context [_dump_tables _ _ _ _ _ _ ?sh1] =>
    destruct (dump_loop_all (config plugin) sh1) as (Hok & (Hs & He & _) & Hd) end.
  split; [exact Hok|]. split; [exact Hd|]. split; [exact Hs | exact He].
Qed.


End DumpRuns.

Lemma dump_declined_witness :
  contains ["*"; "user"] "*" = true /\
  read_confirm (stdin (world (Demo2.shell ["maybe"; " n"]))) = Some (false, []) /\
  dump_log (snd (dump_table_data Demo2.metadata_tables Demo2.mappers Demo.bare_app
                   ["*"; "user"] "fixtures" (Demo2.shell ["maybe"; " n"])))
  = dump_log (Demo2.shell ["maybe"; " n"]).
Proof.
  split; [reflexivity|]. split; [reflexivity|].
  apply (dump_declined Demo2.metadata_tables Demo2.mappers ["*"; "user"] "fixtures"
           Demo.bare_app [] (Demo2.shell ["maybe"; " n"])); reflexivity.
Defined.


Lemma dump_all_tables_witness :
  contains ["*"; "ghost"] "*" = true /\
  read_confirm (stdin (world (Demo2.shell ["Y"]))) = Some (true, []) /\
  get_database_migration_plugin Demo2.app = Ok Demo2.two_databases /\
  fst (dump_table_data Demo2.metadata_tables Demo2.mappers Demo2.app ["*"; "ghost"]
         "fixtures" (Demo2.shell ["Y"])) = Ok tt.
Proof.
  split; [reflexivity|]. split; [reflexivity|]. split; [reflexivity|].
  apply (dump_all_tables Demo2.metadata_tables Demo2.mappers ["*"; "ghost"] "fixtures"
           Demo2.app Demo2.two_databases [] (Demo2.shell ["Y"])); reflexivity.
Defined.


